(** * Sound Waveform Generator: the waveform-to-mesh operator

    A shallow embedding of [SOUNDWAVEFORM_OT_generate.execute]
    (soundwave_generator/__init__.py) from the point where the audio
    buffer has been loaded, followed by the properties of its three
    stages: signal preparation, mesh generation and object creation.

    Conventions.
    - Python floats are idealised as real numbers ([R]); rounding,
      infinities and NaN are outside the model.
    - Python ints that count samples or vertices are [nat]; the
      [resolution] property is an [IntProperty] with [min=10], so it is
      never negative.
    - A numpy array of one dimension is a list; the two-channel array
      returned by [librosa.load(..., mono=False)] is kept channel-major. *)

From Stdlib Require Import String.
From Stdlib Require Import List Arith PeanoNat Lia Bool.
From Stdlib Require Import Reals Lra.
Import ListNotations.

Local Open Scope R_scope.

(** ** Property group ([SoundWaveformProperties]) *)

Inductive vis_style_t := LINEAR | RADIAL | SPIRAL.
Inductive stereo_handling_t := MONO | Z_AXIS.

Record SoundWaveformProperties := mkProps {
  resolution : nat;
  scale_x : R;
  scale_y : R;
  scale_z : R;
  vis_style : vis_style_t;
  stereo_handling : stereo_handling_t;
  normalize_amp : bool;
  mesh_thickness : R
}.

Definition vis_style_eqb (a b : vis_style_t) : bool :=
  match a, b with
  | LINEAR, LINEAR | RADIAL, RADIAL | SPIRAL, SPIRAL => true
  | _, _ => false
  end.

Definition stereo_handling_eqb (a b : stereo_handling_t) : bool :=
  match a, b with
  | MONO, MONO | Z_AXIS, Z_AXIS => true
  | _, _ => false
  end.

(** ** Arrays *)

(** [audio_data]: either a 1-D array of samples or a 2-D array with two
    rows (channel 0 = left, channel 1 = right). *)
Inductive ndarray :=
| Arr1 (data : list R)
| Arr2 (ch0 ch1 : list R).

Definition ndim (a : ndarray) : nat :=
  match a with Arr1 _ => 1 | Arr2 _ _ => 2 end.

(** [audio_data.shape[-1]]: the number of samples per channel. *)
Definition shape_last (a : ndarray) : nat :=
  match a with Arr1 d => length d | Arr2 c0 _ => length c0 end.

(** A 2-D array is rectangular. *)
Definition rectangular (a : ndarray) : Prop :=
  match a with Arr1 _ => True | Arr2 c0 c1 => length c0 = length c1 end.

Inductive exn := ZeroDivisionError | IndexError | NameError.

Module Np.

(** [np.arange(0, stop, step)] for a positive integer [step]:
    [ceil(stop / step)] values [0, step, 2*step, ...]. *)
Definition arange (stop step : nat) : list nat :=
  map (fun k => (k * step)%nat) (seq 0 ((stop + step - 1) / step)).

(** [a[indices]] with an integer index array: one element per index,
    [IndexError] as soon as one index is out of bounds. *)
Fixpoint take (a : list R) (indices : list nat) : exn + list R :=
  match indices with
  | [] => inr []
  | i :: rest =>
      match nth_error a i, take a rest with
      | Some x, inr xs => inr (x :: xs)
      | _, _ => inl IndexError
      end
  end.

End Np.

Module Librosa.

(** Modelled from the spec: [librosa.to_mono] is a function of the
    librosa library and is not part of the source tree.  The spec (4.1,
    step 1) describes it: the two channels are averaged sample-wise
    into one. *)
Definition to_mono (c0 c1 : list R) : list R :=
  map (fun p => (fst p + snd p) / 2) (combine c0 c1).

Definition max_abs (s : list R) : R :=
  fold_right Rmax 0 (map Rabs s).

(** Modelled from the spec: [librosa.util.normalize] is a function of
    the librosa library and is not part of the source tree.  The spec
    (4.1, step 3) describes it: rescale the sequence so that its
    maximum absolute value maps to 1.0, and leave it untouched if the
    maximum absolute value is 0. *)
Definition normalize (s : list R) : list R :=
  let m := max_abs s in
  if Req_dec_T m 0 then s else map (fun x => x / m) s.

End Librosa.

(** ** Mesh generation

    The three branches of the [# --- Mesh Generation ---] block.  Each
    vertex loop appends to [verts], each connectivity loop appends to
    [edges] and [faces]; [sampled_data[i]] is read for [i] in
    [range(num_verts)] only, and [num_verts] is the length of every
    sampled array. *)

Definition vertex := (R * R * R)%type.
Definition edge := (nat * nat)%type.
Definition face := (nat * nat * nat * nat)%type.

Record mesh_data := mkMesh {
  verts : list vertex;
  edges : list edge;
  faces : list face
}.

Definition range (n : nat) : list nat := seq 0 n.

(** [(i / (num_verts - 1)) if num_verts > 1 else 0.5] *)
Definition norm_time (num_verts i : nat) : R :=
  if (1 <? num_verts)%nat then INR i / INR (num_verts - 1) else 0.5.

Module Linear.

(** [has_stereo_z] branch of the vertex loop. *)
Definition verts_stereo (num_verts : nat) (sampled_data_l sampled_data_r : list R)
    (sx sy sz : R) : list vertex :=
  flat_map (fun i =>
    let t := norm_time num_verts i in
    let x := t * sx in
    let amp_l := nth i sampled_data_l 0 * sy in
    let amp_r := nth i sampled_data_r 0 * sz in
    [ (x, amp_l, - amp_r * 0.5); (x, amp_l, amp_r * 0.5) ]) (range num_verts).

(** Fixed-thickness branch of the vertex loop. *)
Definition verts_mono (num_verts : nat) (sampled_data : list R)
    (sx sy sz thickness : R) : list vertex :=
  flat_map (fun i =>
    let t := norm_time num_verts i in
    let x := t * sx in
    let amp := nth i sampled_data 0 * sy in
    [ (x, amp, - thickness * 0.5 * sz); (x, amp, thickness * 0.5 * sz) ])
    (range num_verts).

Definition ribbon_edges (num_verts : nat) : list edge :=
  flat_map (fun i =>
    let v_idx := (i * 2)%nat in
    [ (v_idx, v_idx + 2)%nat; (v_idx + 1, v_idx + 3)%nat ]) (range (num_verts - 1)).

Definition ribbon_faces (num_verts : nat) : list face :=
  map (fun i =>
    let v_idx := (i * 2)%nat in
    (v_idx, v_idx + 2, v_idx + 3, v_idx + 1)%nat) (range (num_verts - 1)).

End Linear.

Module Radial.

Definition center_offset : R := 1.0.

Definition angle (num_verts i : nat) : R :=
  (INR i / INR num_verts) * 2 * PI.

Definition ring_verts (num_verts : nat) (sampled_data : list R)
    (sx sy sz thickness : R) : list vertex :=
  flat_map (fun i =>
    let angle := angle num_verts i in
    let amp := nth i sampled_data 0 * sy in
    let radius := center_offset + amp in
    let base_x := cos angle * radius * sx in
    let base_y := sin angle * radius * sx in
    let z_offset := thickness * 0.5 * sz in
    [ (base_x, base_y, - z_offset); (base_x, base_y, z_offset) ])
    (range num_verts).

Definition ring_faces (num_verts : nat) : list face :=
  map (fun i =>
    let v_idx := (i * 2)%nat in
    let next_v_idx := (((i + 1) mod num_verts) * 2)%nat in
    (v_idx, next_v_idx, next_v_idx + 1, v_idx + 1)%nat) (range num_verts).

End Radial.

Module Spiral.

Definition revolutions : R := 5.0.

Definition line_verts (num_verts : nat) (sampled_data : list R)
    (sx sy sz : R) : list vertex :=
  let max_radius := 1.0 * sx in
  map (fun i =>
    let norm_time := norm_time num_verts i in
    let angle := norm_time * 2 * PI * revolutions in
    let radius := norm_time * max_radius in
    let amp := nth i sampled_data 0 * sy in
    let x := cos angle * radius in
    let y := sin angle * radius in
    let z := amp * sz in
    (x, y, z)) (range num_verts).

Definition line_edges (num_verts : nat) : list edge :=
  map (fun i => (i, i + 1)%nat) (range (num_verts - 1)).

End Spiral.

(** ** The operator: host effects and exceptions

    [execute] prints to the console, reports to the user and calls the
    Blender data API; every call is recorded, in order, in a log.  An
    exception raised inside the [try] block keeps what was logged before
    it and transfers control to the handler. *)

Inductive report_level := INFO | WARNING | ERROR.

Inductive message :=
| Loaded_audio
| Converted_to_Mono
| Using_only_first_channel
| Audio_is_Mono
| Warning_resolution_capped (num_total_samples : nat)
| Downsampled_to (points : nat)
| No_vertices_generated
| Generated_waveform_mesh (obj_name : string)
| Failed_to_process (e : exn)
| Traceback.

Inductive event :=
| Print (m : message)
| Report (level : report_level) (m : message)
| MeshesNew (name : string)
| FromPydata (m : mesh_data)
| MeshUpdate
| ObjectsNew (name : string)
| CollectionLink
| SelectAllDeselect
| SelectSet
| SetActive.

Inductive status := FINISHED | CANCELLED.

(** A computation yields the events it performed and then either a
    value or the exception that interrupted it. *)
Definition Op (A : Type) : Type := (list event * (exn + A))%type.

Definition ret {A} (a : A) : Op A := ([], inr a).

Definition bind {A B} (c : Op A) (k : A -> Op B) : Op B :=
  match c with
  | (log, inr a) => let (log', r) := k a in (log ++ log', r)
  | (log, inl e) => (log, inl e)
  end.

Definition emit (e : event) : Op unit := ([e], inr tt).

Definition lift {A} (r : exn + A) : Op A := ([], r).

Declare Scope op_scope.
Delimit Scope op_scope with op.
Notation "x <- c ;; k" := (bind c (fun x => k))
  (at level 61, c at next level, right associativity) : op_scope.
Notation "c ;; k" := (bind c (fun _ => k))
  (at level 61, right associativity) : op_scope.
Local Open Scope op_scope.

(** [a // b] on Python ints. *)
Definition floordiv (a b : nat) : exn + nat :=
  if (b =? 0)%nat then inl ZeroDivisionError else inr (a / b)%nat.

(** The arrays assigned by the sampling block; a name that the taken
    branch does not assign stays unbound. *)
Record locals := mkLocals {
  sampled_data_l : option (list R);
  sampled_data_r : option (list R);
  sampled_data : option (list R)
}.

(** Reading a name inside [for i in range(num_verts)]: an unbound name
    raises [NameError] on the first iteration, if there is one. *)
Definition read_in_loop (num_verts : nat) (v : option (list R)) : exn + list R :=
  match v with
  | Some a => inr a
  | None => if (num_verts =? 0)%nat then inr [] else inl NameError
  end.

(** [# Handle stereo/mono] *)
Definition handle_stereo (props : SoundWaveformProperties) (audio_data : ndarray)
  : Op ndarray :=
  match audio_data with
  | Arr2 c0 c1 =>
      if stereo_handling_eqb (stereo_handling props) MONO then
        emit (Print Converted_to_Mono) ;;
        ret (Arr1 (Librosa.to_mono c0 c1))
      else if stereo_handling_eqb (stereo_handling props) Z_AXIS
              && vis_style_eqb (vis_style props) LINEAR then
        ret audio_data
      else
        emit (Print Using_only_first_channel) ;;
        ret (Arr1 c0)
  | Arr1 _ =>
      emit (Print Audio_is_Mono) ;;
      ret audio_data
  end.

(** The resolution cap, the step and the index array. *)
Definition downsample_indices (props : SoundWaveformProperties)
    (num_total_samples : nat) : Op (list nat) :=
  let target_resolution := resolution props in
  target_resolution <-
    (if (num_total_samples <? target_resolution)%nat then
       emit (Print (Warning_resolution_capped num_total_samples)) ;;
       ret num_total_samples
     else ret target_resolution) ;;
  step <- lift (floordiv num_total_samples target_resolution) ;;
  let step := if (step =? 0)%nat then 1%nat else step in
  ret (Np.arange num_total_samples step).

Definition maybe_normalize (props : SoundWaveformProperties) (s : list R) : list R :=
  if normalize_amp props then Librosa.normalize s else s.

(** The sampling block.  [audio_data.ndim > 1] is the [Arr2] case. *)
Definition sample_channels (props : SoundWaveformProperties)
    (audio_data : ndarray) (indices : list nat) : Op locals :=
  match audio_data with
  | Arr2 c0 c1 =>
      if stereo_handling_eqb (stereo_handling props) Z_AXIS
         && vis_style_eqb (vis_style props) LINEAR then
        l <- lift (Np.take c0 indices) ;;
        r <- lift (Np.take c1 indices) ;;
        ret (mkLocals (Some (maybe_normalize props l))
                      (Some (maybe_normalize props r)) None)
      else
        s <- lift (if negb (stereo_handling_eqb (stereo_handling props) MONO)
                   then Np.take c0 indices
                   else Np.take (Librosa.to_mono c0 c1) indices) ;;
        ret (mkLocals None None (Some (maybe_normalize props s)))
  | Arr1 d =>
      s <- lift (Np.take d indices) ;;
      ret (mkLocals None None (Some (maybe_normalize props s)))
  end.

(** [# --- Mesh Generation ---] *)
Definition mesh_generation (props : SoundWaveformProperties)
    (audio_data : ndarray) (vars : locals) (num_verts : nat) : exn + mesh_data :=
  let sx := scale_x props in
  let sy := scale_y props in
  let sz := scale_z props in
  let thickness := mesh_thickness props in
  match vis_style props with
  | LINEAR =>
      let has_stereo_z :=
        (1 <? ndim audio_data)%nat
        && stereo_handling_eqb (stereo_handling props) Z_AXIS in
      if has_stereo_z then
        match read_in_loop num_verts (sampled_data_l vars),
              read_in_loop num_verts (sampled_data_r vars) with
        | inr l, inr r =>
            inr (mkMesh (Linear.verts_stereo num_verts l r sx sy sz)
                        (Linear.ribbon_edges num_verts)
                        (Linear.ribbon_faces num_verts))
        | inl e, _ | _, inl e => inl e
        end
      else
        match read_in_loop num_verts (sampled_data vars) with
        | inr s =>
            inr (mkMesh (Linear.verts_mono num_verts s sx sy sz thickness)
                        (Linear.ribbon_edges num_verts)
                        (Linear.ribbon_faces num_verts))
        | inl e => inl e
        end
  | RADIAL =>
      match read_in_loop num_verts (sampled_data vars) with
      | inr s =>
          inr (mkMesh (Radial.ring_verts num_verts s sx sy sz thickness)
                      []
                      (Radial.ring_faces num_verts))
      | inl e => inl e
      end
  | SPIRAL =>
      match read_in_loop num_verts (sampled_data vars) with
      | inr s =>
          inr (mkMesh (Spiral.line_verts num_verts s sx sy sz)
                      (Spiral.line_edges num_verts)
                      [])
      | inl e => inl e
      end
  end.

(** [# --- Create Blender Object ---] *)
Definition create_object (mesh_name : string) (m : mesh_data) : Op status :=
  emit (MeshesNew mesh_name) ;;
  match verts m with
  | [] =>
      emit (Report WARNING No_vertices_generated) ;;
      ret CANCELLED
  | _ :: _ =>
      emit (FromPydata m) ;;
      emit MeshUpdate ;;
      let obj_name := mesh_name in
      emit (ObjectsNew obj_name) ;;
      emit CollectionLink ;;
      emit SelectAllDeselect ;;
      emit SelectSet ;;
      emit SetActive ;;
      emit (Report INFO (Generated_waveform_mesh obj_name)) ;;
      ret FINISHED
  end.

(** The body of the [try] block, from the loaded array on.  [mesh_name]
    is the base name of the file followed by [_Waveform]. *)
Definition execute_try (props : SoundWaveformProperties) (mesh_name : string)
    (loaded : ndarray) : Op status :=
  emit (Print Loaded_audio) ;;
  audio_data <- handle_stereo props loaded ;;
  let num_total_samples := shape_last audio_data in
  indices <- downsample_indices props num_total_samples ;;
  vars <- sample_channels props audio_data indices ;;
  emit (Print (Downsampled_to (length indices))) ;;
  let num_verts := length indices in
  m <- lift (mesh_generation props audio_data vars num_verts) ;;
  create_object mesh_name m.

(** [execute]: the [try] block and its [except Exception] handler. *)
Definition execute (props : SoundWaveformProperties) (mesh_name : string)
    (loaded : ndarray) : list event * status :=
  match execute_try props mesh_name loaded with
  | (log, inr st) => (log, st)
  | (log, inl e) =>
      (log ++ [Report ERROR (Failed_to_process e); Print Traceback], CANCELLED)
  end.

(** Calls that create or change Blender data: the mesh datablock, its
    geometry, the object and its link into the scene collection. *)
Definition is_host_call (e : event) : bool :=
  match e with
  | Print _ | Report _ _ => false
  | _ => true
  end.

(** ** Vocabulary of the statements *)

(** Vertices appended per sample by each style. *)
Definition verts_per_sample (style : vis_style_t) : nat :=
  match style with LINEAR | RADIAL => 2 | SPIRAL => 1 end.

(** After [handle_stereo] a 2-D array is left only for the Z_AXIS
    handling of the LINEAR style. *)
Definition reduced_for (props : SoundWaveformProperties) (ad : ndarray) : Prop :=
  match ad with
  | Arr1 _ => True
  | Arr2 _ _ => stereo_handling props = Z_AXIS /\ vis_style props = LINEAR
  end.

(** The prints of [handle_stereo]. *)
Definition channel_prints : list event :=
  [Print Converted_to_Mono; Print Using_only_first_channel; Print Audio_is_Mono].

(** The print of the resolution cap, when it applies. *)
Definition cap_warning (props : SoundWaveformProperties) (N : nat) : list event :=
  if (N <? resolution props)%nat then [Print (Warning_resolution_capped N)] else [].

(** The log of a run that reaches [return {'FINISHED'}]. *)
Definition finished_log (mesh_name : string) (pr warn : list event) (n : nat)
    (m : mesh_data) : list event :=
  Print Loaded_audio :: pr ++ warn ++
  [ Print (Downsampled_to n); MeshesNew mesh_name; FromPydata m; MeshUpdate;
    ObjectsNew mesh_name; CollectionLink; SelectAllDeselect; SelectSet;
    SetActive; Report INFO (Generated_waveform_mesh mesh_name) ].

Definition edge_in_range (count : nat) (e : edge) : Prop :=
  let '(a, b) := e in (a < count /\ b < count)%nat.

Definition face_in_range (count : nat) (f : face) : Prop :=
  let '(a, b, c, d) := f in (a < count /\ b < count /\ c < count /\ d < count)%nat.

(** Distance of a vertex from the z axis. *)
Definition planar_distance (v : vertex) : R :=
  let '(x, y, _) := v in sqrt (x * x + y * y).

(** The same settings with another [scale_y]. *)
Definition with_scale_y (props : SoundWaveformProperties) (sy : R)
  : SoundWaveformProperties :=
  mkProps (resolution props) (scale_x props) sy (scale_z props)
          (vis_style props) (stereo_handling props) (normalize_amp props)
          (mesh_thickness props).

(** ** Concrete settings and buffers *)

Definition linear_props : SoundWaveformProperties :=
  mkProps 10 1 1 1 LINEAR MONO false 0.2.

Definition radial_props : SoundWaveformProperties :=
  mkProps 10 1 1 0.2 RADIAL MONO false 0.1.

Definition stereo_props : SoundWaveformProperties :=
  mkProps 10 1 1 0.2 LINEAR Z_AXIS false 0.1.

Definition normalizing_props : SoundWaveformProperties :=
  mkProps 10 1 1 0.2 LINEAR MONO true 0.1.

Definition three_samples : list R := [0.5; 0.25; 0].

Definition fifteen_samples : ndarray := Arr1 (repeat 0.5 15).

Definition radial_three : mesh_data :=
  mkMesh (Radial.ring_verts 3 three_samples 1 1 0.2 0.1) []
         (Radial.ring_faces 3).

Definition silent_ring : mesh_data :=
  mkMesh (Radial.ring_verts 3 [0; 0; 0] 1 1 0.2 0.1) [] (Radial.ring_faces 3).

Definition stereo_pair : mesh_data :=
  mkMesh (Linear.verts_stereo 2 [0.5; -0.5] [0.25; 0.75] 1 1 0.2)
         (Linear.ribbon_edges 2) (Linear.ribbon_faces 2).

(** The same settings with another [stereo_handling]. *)
Definition with_stereo_handling (props : SoundWaveformProperties)
    (sh : stereo_handling_t) : SoundWaveformProperties :=
  mkProps (resolution props) (scale_x props) (scale_y props) (scale_z props)
          (vis_style props) sh (normalize_amp props) (mesh_thickness props).

(** The same settings with another [mesh_thickness]. *)
Definition with_mesh_thickness (props : SoundWaveformProperties)
    (thickness : R) : SoundWaveformProperties :=
  mkProps (resolution props) (scale_x props) (scale_y props) (scale_z props)
          (vis_style props) (stereo_handling props) (normalize_amp props)
          thickness.

(** The Blender data calls of a run that creates its object, in order. *)
Definition object_creation_calls (mesh_name : string) (m : mesh_data)
  : list event :=
  [ MeshesNew mesh_name; FromPydata m; MeshUpdate; ObjectsNew mesh_name;
    CollectionLink; SelectAllDeselect; SelectSet; SetActive ].

(** The log of a run that the [except] handler ends. *)
Definition cancelled_log (pr warn : list event) (e : exn) : list event :=
  Print Loaded_audio :: pr ++ warn ++
  [ Report ERROR (Failed_to_process e); Print Traceback ].

Definition vertex_x (v : vertex) : R := fst (fst v).
Definition vertex_y (v : vertex) : R := snd (fst v).
Definition vertex_z (v : vertex) : R := snd v.

(** Vertex index [v] is a corner of the face, an end of the edge. *)
Definition face_corner (v : nat) (f : face) : Prop :=
  let '(a, b, c, d) := f in v = a \/ v = b \/ v = c \/ v = d.

Definition edge_end (v : nat) (e : edge) : Prop :=
  let '(a, b) := e in v = a \/ v = b.

(** A face whose four corners are four different vertices. *)
Definition face_distinct (f : face) : Prop :=
  let '(a, b, c, d) := f in NoDup [a; b; c; d].

(** ** The operator around the [try] block, [poll], the panel and the
    registration

    What the add-on asks of its environment is a parameter: the flag set
    by [import librosa], [os.path.exists], [bpy.path.abspath],
    [librosa.load] (which returns the array or raises) and the base name
    of a path without its extension
    ([os.path.splitext(os.path.basename(filepath))[0]]). *)

Record host := mkHost {
  LIBROSA_AVAILABLE : bool;
  os_path_exists : string -> bool;
  bpy_path_abspath : string -> string;
  librosa_load : string -> option ndarray;
  base_name : string -> string
}.

Inductive operator_event :=
| ReportLibrosaNotFound
| ReportFileNotFound (filepath : string)
| PrintLoadingAudio (filepath : string)
| ReportLoadFailed
| PrintLoadTraceback
| Core (e : event).

(** [SOUNDWAVEFORM_OT_generate.poll]; [filepath] is [props.filepath]. *)
Definition poll (h : host) (filepath : string) : bool :=
  LIBROSA_AVAILABLE h && negb (String.eqb filepath "") && os_path_exists h filepath.

(** [SOUNDWAVEFORM_OT_generate.execute] as a whole: the two guards, the
    load and the [try] block with its handler. *)
Definition operator_execute (h : host) (props_filepath : string)
    (props : SoundWaveformProperties) : list operator_event * status :=
  if negb (LIBROSA_AVAILABLE h) then ([ReportLibrosaNotFound], CANCELLED)
  else
    let filepath := bpy_path_abspath h props_filepath in
    if negb (os_path_exists h filepath) then
      ([ReportFileNotFound filepath], CANCELLED)
    else
      match librosa_load h filepath with
      | None =>
          ([PrintLoadingAudio filepath; ReportLoadFailed; PrintLoadTraceback],
           CANCELLED)
      | Some loaded =>
          let mesh_name := (base_name h filepath ++ "_Waveform")%string in
          let (log, st) := execute props mesh_name loaded in
          (PrintLoadingAudio filepath :: map Core log, st)
      end.

(** The panel: the calls made on the layout, in order. *)
Inductive prop_name :=
| P_filepath | P_resolution | P_vis_style | P_normalize_amp
| P_stereo_handling | P_mesh_thickness | P_scale_x | P_scale_y | P_scale_z.

Inductive ui_parent := on_layout | on_box | on_col | on_row.

Inductive ui_call :=
| ui_label (parent : ui_parent) (text icon : string)
| ui_prop (parent : ui_parent) (name : prop_name) (text : string)
| ui_box
| ui_separator
| ui_column
| ui_row
| ui_operator (bl_idname icon : string).

(** [SOUNDWAVEFORM_PT_panel.draw]; an absent [text] or [icon] argument
    is the empty string. *)
Definition draw (h : host) (props_filepath : string)
    (props : SoundWaveformProperties) : list ui_call :=
  [ ui_label on_layout "Input Audio:" ""; ui_prop on_layout P_filepath "" ] ++
  if negb (LIBROSA_AVAILABLE h) then
    [ ui_box;
      ui_label on_box "Librosa library not found!" "ERROR";
      ui_label on_box "Install it via Blender Preferences > Add-ons" "";
      ui_label on_box "or manually in Blender's Python." "" ]
  else if String.eqb props_filepath ""
          || negb (os_path_exists h (bpy_path_abspath h props_filepath)) then
    [ ui_label on_layout "Please select a valid audio file." "INFO" ]
  else
    [ ui_separator;
      ui_label on_layout "Generation Settings:" "";
      ui_column;
      ui_prop on_col P_resolution "";
      ui_prop on_col P_vis_style "";
      ui_prop on_col P_normalize_amp "" ] ++
    (match vis_style props with
     | LINEAR => [ ui_prop on_col P_stereo_handling "Stereo";
                   ui_prop on_col P_mesh_thickness "Z-Thickness" ]
     | RADIAL => [ ui_prop on_col P_mesh_thickness "Z-Thickness" ]
     | SPIRAL => []
     end) ++
    [ ui_separator;
      ui_label on_layout "Scaling:" "";
      ui_row;
      ui_prop on_row P_scale_x "X (Time/Shape)";
      ui_prop on_row P_scale_y "Y (Amplitude)";
      (if negb (vis_style_eqb (vis_style props) RADIAL)
       then ui_prop on_row P_scale_z "Z (Depth/Amp)"
       else ui_prop on_row P_scale_z "Z (Thickness)");
      ui_separator;
      ui_operator "soundwaveform.generate" "MOD_WAVE" ].

(** The property [name] is drawn, whatever its container and label. *)
Definition draws_prop (name : prop_name) (calls : list ui_call) : Prop :=
  exists parent text, In (ui_prop parent name text) calls.

(** The button of the operator is drawn. *)
Definition draws_button (calls : list ui_call) : Prop :=
  exists icon, In (ui_operator "soundwaveform.generate" icon) calls.

(** Registration.  [register] and [unregister] loop over the module's
    tuple [classes], taken here as a parameter. *)
Inductive registry_call :=
| registry_print (text : string)
| register_class (cls : string)
| unregister_class (cls : string)
| set_scene_pointer
| del_scene_pointer.

Definition classes : list string :=
  [ "SoundWaveformProperties"; "SOUNDWAVEFORM_OT_generate";
    "SOUNDWAVEFORM_PT_panel" ]%string.

Definition register_calls (classes : list string) : list registry_call :=
  [ registry_print "Registering Sound Waveform Generator Addon" ] ++
  map register_class classes ++
  [ set_scene_pointer ].

Definition unregister_calls (classes : list string) : list registry_call :=
  [ registry_print "Unregistering Sound Waveform Generator Addon";
    del_scene_pointer ] ++
  map unregister_class (rev classes).

Definition register : list registry_call := register_calls classes.
Definition unregister : list registry_call := unregister_calls classes.

(** The call that undoes a call. *)
Definition undo_call (c : registry_call) : registry_call :=
  match c with
  | register_class cls => unregister_class cls
  | unregister_class cls => register_class cls
  | set_scene_pointer => del_scene_pointer
  | del_scene_pointer => set_scene_pointer
  | registry_print text => registry_print text
  end.

Definition is_registry_print (c : registry_call) : bool :=
  match c with registry_print _ => true | _ => false end.

(** A host where librosa is available and one file exists. *)
Definition demo_host : host :=
  mkHost true (fun path => String.eqb path "/tmp/clip.wav") (fun path => path)
         (fun _ => Some (Arr1 [0.5; 0.25; 0])) (fun _ => "clip"%string).

Definition spiral_props : SoundWaveformProperties :=
  mkProps 10 1 1 0.2 SPIRAL Z_AXIS false 0.1.

Definition linear_three : mesh_data :=
  mkMesh (Linear.verts_mono 3 three_samples 1 1 1 0.2)
         (Linear.ribbon_edges 3) (Linear.ribbon_faces 3).

Definition spiral_three : mesh_data :=
  mkMesh (Spiral.line_verts 3 three_samples 1 1 0.2)
         (Spiral.line_edges 3) [].

(** The sampled arrays that the sampling block has bound. *)
Definition retained_arrays (vars : locals) : list (list R) :=
  (match sampled_data_l vars with Some a => [a] | None => [] end) ++
  (match sampled_data_r vars with Some a => [a] | None => [] end) ++
  (match sampled_data vars with Some a => [a] | None => [] end).

(** * Properties *)

(** ** Lists built by the loops *)

Section PairLoop.
Context {A B : Type} (f g : A -> B).

Lemma pair_loop_length (l : list A) :
  length (flat_map (fun i => [f i; g i]) l) = (2 * length l)%nat.
Proof.
  induction l as [|a l IH]; simpl; [reflexivity | rewrite IH; lia].
Qed.

Lemma pair_loop_nth_error (l : list A) (k : nat) :
  nth_error (flat_map (fun i => [f i; g i]) l) (2 * k) = option_map f (nth_error l k)
  /\ nth_error (flat_map (fun i => [f i; g i]) l) (2 * k + 1)
     = option_map g (nth_error l k).
Proof.
  revert k; induction l as [|a l IH]; intros [|k]; simpl; auto.
  replace (k + S (k + 0))%nat with (S (2 * k)) by lia.
  replace (S (2 * k) + 1)%nat with (S (2 * k + 1)) by lia.
  simpl. apply IH.
Qed.
End PairLoop.

Lemma range_length (n : nat) : length (range n) = n.
Proof. apply length_seq. Qed.

Lemma range_nth_error (n i : nat) : (i < n)%nat -> nth_error (range n) i = Some i.
Proof.
  intros Hi. unfold range.
  rewrite (nth_error_nth' _ 0%nat) by (rewrite length_seq; exact Hi).
  now rewrite seq_nth.
Qed.

Lemma pair_loop_nth {B : Type} (f g : nat -> B) (n i : nat) (d : B) :
  (i < n)%nat ->
  nth (2 * i) (flat_map (fun i => [f i; g i]) (range n)) d = f i
  /\ nth (2 * i + 1) (flat_map (fun i => [f i; g i]) (range n)) d = g i.
Proof.
  intros Hi.
  destruct (pair_loop_nth_error f g (range n) i) as [H0 H1].
  rewrite range_nth_error in H0, H1 by exact Hi.
  split; apply nth_error_nth; assumption.
Qed.

Lemma map_range_nth {B : Type} (f : nat -> B) (n i : nat) (d : B) :
  (i < n)%nat -> nth i (map f (range n)) d = f i.
Proof.
  intros Hi. apply nth_error_nth.
  rewrite nth_error_map, range_nth_error by exact Hi. reflexivity.
Qed.

(** ** Index arrays *)

Lemma arange_length (stop step : nat) :
  length (Np.arange stop step) = ((stop + step - 1) / step)%nat.
Proof. unfold Np.arange. now rewrite length_map, length_seq. Qed.

Lemma arange_bound (stop step i : nat) :
  (1 <= step)%nat -> In i (Np.arange stop step) -> (i < stop)%nat.
Proof.
  intros Hs Hin. unfold Np.arange in Hin.
  apply in_map_iff in Hin as (k & <- & Hk). apply in_seq in Hk.
  pose proof (Nat.Div0.mul_div_le (stop + step - 1) step) as Hle.
  nia.
Qed.

Lemma arange_step_one (stop : nat) : length (Np.arange stop 1) = stop.
Proof.
  rewrite arange_length. replace (stop + 1 - 1)%nat with stop by lia.
  apply Nat.div_1_r.
Qed.

Lemma arange_nonempty (stop step : nat) :
  (1 <= stop)%nat -> (1 <= step)%nat -> (1 <= length (Np.arange stop step))%nat.
Proof.
  intros H1 H2. rewrite arange_length.
  apply Nat.div_le_lower_bound; lia.
Qed.

(** [a[indices]] succeeds when every index is in bounds, and keeps one
    element per index. *)
Lemma take_in_bounds (a : list R) (indices : list nat) :
  (forall i, In i indices -> (i < length a)%nat) ->
  Np.take a indices = inr (map (fun i => nth i a 0) indices).
Proof.
  induction indices as [|i rest IH]; intros Hb; simpl; [reflexivity|].
  rewrite IH by (intros j Hj; apply Hb; now right).
  rewrite (nth_error_nth' a 0) by (apply Hb; now left).
  reflexivity.
Qed.

Lemma to_mono_length (c0 c1 : list R) :
  length c0 = length c1 -> length (Librosa.to_mono c0 c1) = length c0.
Proof.
  intros H. unfold Librosa.to_mono.
  rewrite length_map, length_combine, <- H. apply Nat.min_id.
Qed.

(** ** Running the stages *)

(** The step the operator uses: [N // min(resolution, N)]. *)
Lemma downsample_indices_run (props : SoundWaveformProperties) (N : nat) :
  (1 <= N)%nat -> (1 <= resolution props)%nat ->
  downsample_indices props N =
    ((if (N <? resolution props)%nat
      then [Print (Warning_resolution_capped N)] else []),
     inr (Np.arange N (N / Nat.min (resolution props) N))).
Proof.
  intros HN Hr. unfold downsample_indices, floordiv.
  destruct (N <? resolution props)%nat eqn:Hcap.
  - apply Nat.ltb_lt in Hcap.
    rewrite Nat.min_r by lia.
    cbn [bind emit ret lift app].
    replace (N =? 0)%nat with false by (symmetry; apply Nat.eqb_neq; lia).
    rewrite Nat.div_same by lia. reflexivity.
  - apply Nat.ltb_ge in Hcap.
    rewrite Nat.min_l by lia.
    cbn [bind emit ret lift app].
    replace (resolution props =? 0)%nat with false
      by (symmetry; apply Nat.eqb_neq; lia).
    assert (1 <= N / resolution props)%nat
      by (apply Nat.div_le_lower_bound; lia).
    replace (N / resolution props =? 0)%nat with false
      by (symmetry; apply Nat.eqb_neq; lia).
    reflexivity.
Qed.

Lemma downsample_indices_empty (props : SoundWaveformProperties) :
  exists log, downsample_indices props 0 = (log, inl ZeroDivisionError)
    /\ forallb (fun e => negb (is_host_call e)) log = true.
Proof.
  unfold downsample_indices, floordiv.
  destruct (resolution props); simpl; eexists; split; reflexivity.
Qed.

Lemma step_positive (r N : nat) :
  (1 <= N)%nat -> (1 <= r)%nat -> (1 <= N / Nat.min r N)%nat.
Proof. intros. apply Nat.div_le_lower_bound; lia. Qed.

(** Splits a hypothesis [mesh_generation ... = inr m] into the branches
    that return a mesh and replaces [m] by the mesh of the branch. *)
Ltac generation_cases H :=
  unfold mesh_generation in H;
  destruct (vis_style _);
  repeat match type of H with
         | context [if ?b then _ else _] => destruct b
         | context [match read_in_loop ?k ?v with _ => _ end] =>
             destruct (read_in_loop k v)
         end;
  try discriminate; injection H as <-; simpl.

(** What [mesh_generation] returns has the vertex count of its style. *)
Lemma mesh_generation_verts (props : SoundWaveformProperties) (ad : ndarray)
    (vars : locals) (n : nat) (m : mesh_data) :
  mesh_generation props ad vars n = inr m ->
  length (verts m) = (verts_per_sample (vis_style props) * n)%nat.
Proof.
  intros H. generation_cases H;
    unfold Linear.verts_stereo, Linear.verts_mono, Radial.ring_verts,
      Spiral.line_verts;
    rewrite ?pair_loop_length, ?length_map, range_length; lia.
Qed.

Lemma handle_stereo_run (props : SoundWaveformProperties) (loaded : ndarray) :
  exists pr ad,
    handle_stereo props loaded = (pr, inr ad)
    /\ incl pr channel_prints
    /\ reduced_for props ad
    /\ (shape_last loaded = 0%nat -> shape_last ad = 0%nat)
    /\ (rectangular loaded ->
        rectangular ad /\ shape_last ad = shape_last loaded).
Proof.
  unfold handle_stereo, channel_prints.
  destruct loaded as [d | c0 c1].
  - exists [Print Audio_is_Mono], (Arr1 d). simpl.
    repeat split; auto. intros e [<- | []]; simpl; auto.
  - destruct (stereo_handling props) eqn:Hs; simpl.
    + exists [Print Converted_to_Mono], (Arr1 (Librosa.to_mono c0 c1)). simpl.
      repeat split; auto.
      * intros e [<- | []]; simpl; auto.
      * intros H0. apply length_zero_iff_nil in H0. now subst c0.
      * apply to_mono_length; assumption.
    + destruct (vis_style props) eqn:Hv; simpl.
      * exists [], (Arr2 c0 c1). simpl. repeat split; auto. intros e [].
      * exists [Print Using_only_first_channel], (Arr1 c0). simpl.
        repeat split; auto. intros e [<- | []]; simpl; auto.
      * exists [Print Using_only_first_channel], (Arr1 c0). simpl.
        repeat split; auto. intros e [<- | []]; simpl; auto.
Qed.

Lemma sample_and_build (props : SoundWaveformProperties) (ad : ndarray)
    (indices : list nat) :
  reduced_for props ad -> rectangular ad ->
  (forall i, In i indices -> (i < shape_last ad)%nat) ->
  (1 <= length indices)%nat ->
  exists vars m,
    sample_channels props ad indices = ([], inr vars)
    /\ mesh_generation props ad vars (length indices) = inr m
    /\ verts m <> [].
Proof.
  intros Hred Hrect Hb Hn.
  assert (Hne : forall (vars : locals) (m : mesh_data),
             mesh_generation props ad vars (length indices) = inr m ->
             verts m <> []).
  { intros vars m Hm Hnil. apply mesh_generation_verts in Hm.
    rewrite Hnil in Hm. simpl in Hm.
    destruct (vis_style props); simpl in Hm; lia. }
  assert (Hrun : exists vars,
             sample_channels props ad indices = ([], inr vars)
             /\ exists m, mesh_generation props ad vars (length indices) = inr m).
  { destruct ad as [d | c0 c1]; simpl in Hred, Hrect, Hb.
    - eexists. unfold sample_channels.
      rewrite (take_in_bounds d indices Hb). cbn [bind lift ret app].
      split; [reflexivity|].
      unfold mesh_generation. simpl.
      destruct (vis_style props); simpl; eexists; reflexivity.
    - destruct Hred as [Hs Hv]. eexists. unfold sample_channels.
      rewrite Hs, Hv. simpl.
      rewrite (take_in_bounds c0 indices Hb).
      rewrite (take_in_bounds c1 indices)
        by (intros i Hi; rewrite <- Hrect; auto).
      cbn [bind lift ret app].
      split; [reflexivity|].
      unfold mesh_generation. rewrite Hs, Hv. simpl.
      eexists; reflexivity. }
  destruct Hrun as (vars & Hsample & m & Hm).
  exists vars, m. repeat split; eauto.
Qed.

(** A rectangular, non-empty buffer and a resolution of at least 1 take
    [execute] through all its stages. *)
Lemma execute_run (props : SoundWaveformProperties) (mesh_name : string)
    (loaded : ndarray) :
  rectangular loaded ->
  (1 <= shape_last loaded)%nat ->
  (1 <= resolution props)%nat ->
  let N := shape_last loaded in
  let indices := Np.arange N (N / Nat.min (resolution props) N) in
  exists pr ad vars m,
    handle_stereo props loaded = (pr, inr ad)
    /\ incl pr channel_prints
    /\ sample_channels props ad indices = ([], inr vars)
    /\ mesh_generation props ad vars (length indices) = inr m
    /\ execute props mesh_name loaded =
         (finished_log mesh_name pr (cap_warning props N) (length indices) m,
          FINISHED).
Proof.
  intros Hrect HN Hr N indices.
  destruct (handle_stereo_run props loaded)
    as (pr & ad & Hhs & Hpr & Hred & _ & Hshape).
  destruct (Hshape Hrect) as [Hrect' HN'].
  assert (Hstep : (1 <= N / Nat.min (resolution props) N)%nat)
    by (apply step_positive; assumption).
  destruct (sample_and_build props ad indices Hred Hrect')
    as (vars & m & Hsample & Hm & Hne).
  { intros i Hi. rewrite HN'. eapply arange_bound; eassumption. }
  { apply arange_nonempty; assumption. }
  exists pr, ad, vars, m. repeat split; try assumption.
  unfold execute, execute_try.
  cbn [bind emit].
  rewrite Hhs. cbn [bind].
  rewrite HN'. fold N.
  rewrite (downsample_indices_run props N HN Hr). fold indices. cbn [bind].
  rewrite Hsample. cbn [bind emit lift].
  rewrite Hm. unfold create_object.
  destruct (verts m) as [|v vs] eqn:Hv; [contradiction|].
  cbn [bind emit ret app]. reflexivity.
Qed.

(** ** Connectivity of the three builders *)

Lemma in_range (n i : nat) : In i (range n) <-> (i < n)%nat.
Proof. unfold range. rewrite in_seq. lia. Qed.

Lemma linear_edges_in_range (n : nat) :
  Forall (edge_in_range (2 * n)) (Linear.ribbon_edges n).
Proof.
  apply Forall_forall. intros e He. unfold Linear.ribbon_edges in He.
  apply in_flat_map in He as (i & Hi & He). apply in_range in Hi.
  destruct He as [<- | [<- | []]]; simpl; lia.
Qed.

Lemma linear_faces_in_range (n : nat) :
  Forall (face_in_range (2 * n)) (Linear.ribbon_faces n).
Proof.
  apply Forall_forall. intros f Hf. unfold Linear.ribbon_faces in Hf.
  apply in_map_iff in Hf as (i & <- & Hi). apply in_range in Hi.
  simpl; lia.
Qed.

Lemma radial_faces_in_range (n : nat) :
  Forall (face_in_range (2 * n)) (Radial.ring_faces n).
Proof.
  apply Forall_forall. intros f Hf. unfold Radial.ring_faces in Hf.
  apply in_map_iff in Hf as (i & <- & Hi). apply in_range in Hi.
  assert ((i + 1) mod n < n)%nat by (apply Nat.mod_upper_bound; lia).
  simpl; lia.
Qed.

Lemma spiral_edges_in_range (n : nat) :
  Forall (edge_in_range n) (Spiral.line_edges n).
Proof.
  apply Forall_forall. intros e He. unfold Spiral.line_edges in He.
  apply in_map_iff in He as (i & <- & Hi). apply in_range in Hi.
  simpl; lia.
Qed.

Create HintDb connectivity.
#[local] Hint Resolve linear_edges_in_range linear_faces_in_range
  radial_faces_in_range spiral_edges_in_range Forall_nil : connectivity.

(** Case analysis on a successful [mesh_generation]: the mesh is the
    one of the selected style. *)
Lemma mesh_generation_inv (props : SoundWaveformProperties) (ad : ndarray)
    (vars : locals) (n : nat) (m : mesh_data) :
  mesh_generation props ad vars n = inr m ->
  match vis_style props with
  | LINEAR =>
      edges m = Linear.ribbon_edges n /\ faces m = Linear.ribbon_faces n
  | RADIAL => edges m = [] /\ faces m = Radial.ring_faces n
  | SPIRAL => edges m = Spiral.line_edges n /\ faces m = []
  end.
Proof.
  intros H. generation_cases H; auto.
Qed.

(** C3.  Every vertex index that appears in an edge or in a face of a
    generated mesh is strictly smaller than the number of generated
    vertices, whatever the style (LINEAR, RADIAL, SPIRAL) and the sample
    count. *)
Theorem indices_below_vertex_count (props : SoundWaveformProperties)
    (ad : ndarray) (vars : locals) (n : nat) (m : mesh_data) :
  mesh_generation props ad vars n = inr m ->
  Forall (edge_in_range (length (verts m))) (edges m)
  /\ Forall (face_in_range (length (verts m))) (faces m).
Proof.
  intros H.
  pose proof (mesh_generation_verts _ _ _ _ _ H) as Hv.
  pose proof (mesh_generation_inv _ _ _ _ _ H) as Hc.
  rewrite Hv.
  destruct (vis_style props); destruct Hc as [-> ->];
    cbn [verts_per_sample]; rewrite ?Nat.mul_1_l;
    split; auto with connectivity.
Qed.

(** C4.  For n >= 1 the LINEAR and RADIAL styles generate 2n vertices and
    the SPIRAL style n; for n >= 2 LINEAR generates n-1 quads, RADIAL n
    quads whose i-th one joins pair i to pair (i+1) mod n, and SPIRAL
    n-1 edges and no face. *)
Theorem vertex_and_face_counts (props : SoundWaveformProperties)
    (ad : ndarray) (vars : locals) (n : nat) (m : mesh_data) :
  mesh_generation props ad vars n = inr m ->
  ((1 <= n)%nat ->
   match vis_style props with
   | LINEAR | RADIAL => length (verts m) = (2 * n)%nat
   | SPIRAL => length (verts m) = n
   end)
  /\ ((2 <= n)%nat ->
      match vis_style props with
      | LINEAR => length (faces m) = (n - 1)%nat
      | RADIAL =>
          length (faces m) = n
          /\ forall i, (i < n)%nat ->
               nth i (faces m) (0, 0, 0, 0)%nat =
                 (2 * i, 2 * ((i + 1) mod n), 2 * ((i + 1) mod n) + 1, 2 * i + 1)%nat
      | SPIRAL => length (edges m) = (n - 1)%nat /\ length (faces m) = 0%nat
      end).
Proof.
  intros H.
  pose proof (mesh_generation_verts _ _ _ _ _ H) as Hv.
  pose proof (mesh_generation_inv _ _ _ _ _ H) as Hc.
  split; intros Hn.
  - destruct (vis_style props); simpl in Hv; lia.
  - destruct (vis_style props); destruct Hc as [He Hf]; rewrite ?He, ?Hf.
    + unfold Linear.ribbon_faces. now rewrite length_map, range_length.
    + unfold Radial.ring_faces. split.
      * now rewrite length_map, range_length.
      * intros i Hi. rewrite map_range_nth by exact Hi. cbv zeta.
        rewrite (Nat.mul_comm i 2), (Nat.mul_comm ((i + 1) mod n) 2).
        reflexivity.
    + unfold Spiral.line_edges. now rewrite length_map, range_length.
Qed.

(** ** Runs of the operator *)

Lemma channel_prints_no_host_call (pr : list event) :
  incl pr channel_prints -> Forall (fun e => is_host_call e = false) pr.
Proof.
  intros Hincl. apply Forall_forall. intros e He.
  apply Hincl in He. unfold channel_prints in He.
  destruct He as [<- | [<- | [<- | []]]]; reflexivity.
Qed.

(** C7.  A buffer with zero samples makes [execute] fail: the integer
    division of the step raises, the handler reports the error and the
    operator is cancelled; nothing was asked of the Blender data API, so
    neither a mesh datablock nor an object exists afterwards. *)
Theorem empty_buffer_is_an_error (props : SoundWaveformProperties)
    (mesh_name : string) (loaded : ndarray) :
  shape_last loaded = 0%nat ->
  snd (execute props mesh_name loaded) = CANCELLED
  /\ In (Report ERROR (Failed_to_process ZeroDivisionError))
        (fst (execute props mesh_name loaded))
  /\ Forall (fun e => is_host_call e = false)
        (fst (execute props mesh_name loaded)).
Proof.
  intros Hempty.
  destruct (handle_stereo_run props loaded)
    as (pr & ad & Hhs & Hpr & _ & Hzero & _).
  specialize (Hzero Hempty).
  destruct (downsample_indices_empty props) as (warn & Hds & Hwarn).
  unfold execute, execute_try.
  cbn [bind emit]. rewrite Hhs. cbn [bind]. rewrite Hzero, Hds.
  cbn [bind fst snd app].
  split; [reflexivity|]. split.
  - right. rewrite !in_app_iff. right. now left.
  - constructor; [reflexivity|].
    rewrite !Forall_app. repeat split.
    + now apply channel_prints_no_host_call.
    + apply Forall_forall. intros e He.
      rewrite forallb_forall in Hwarn. specialize (Hwarn e He).
      now destruct (is_host_call e).
    + repeat constructor.
Qed.

(** Goes through the events of a finished log one by one, closing the
    cases where the event sought differs from the event found. *)
Ltac scan_finished_log Hpr Hin :=
  unfold finished_log in Hin;
  destruct Hin as [Hin | Hin]; [discriminate|];
  rewrite !in_app_iff in Hin; destruct Hin as [Hin | [Hin | Hin]];
  [ apply Hpr in Hin; unfold channel_prints in Hin;
    destruct Hin as [Hin | [Hin | [Hin | []]]]; discriminate
  | unfold cap_warning in Hin;
    match type of Hin with
    | context [if ?b then _ else _] => destruct b
    end; simpl in Hin;
    [destruct Hin as [Hin | []]; discriminate | contradiction]
  | simpl in Hin;
    repeat (destruct Hin as [Hin | Hin]; [try discriminate|]);
    try contradiction ].

Lemma downsampled_in_finished_log (mesh_name : string) (pr : list event)
    (props : SoundWaveformProperties) (N n k : nat) (m : mesh_data) :
  incl pr channel_prints ->
  In (Print (Downsampled_to k)) (finished_log mesh_name pr (cap_warning props N) n m) ->
  k = n.
Proof.
  intros Hpr Hin. scan_finished_log Hpr Hin. now injection Hin.
Qed.

Lemma no_error_in_finished_log (mesh_name : string) (pr : list event)
    (props : SoundWaveformProperties) (N n : nat) (m : mesh_data) (msg : message) :
  incl pr channel_prints ->
  ~ In (Report ERROR msg) (finished_log mesh_name pr (cap_warning props N) n m).
Proof.
  intros Hpr Hin. scan_finished_log Hpr Hin.
Qed.

Lemma from_pydata_in_finished_log (mesh_name : string) (pr warn : list event)
    (n : nat) (m : mesh_data) :
  In (FromPydata m) (finished_log mesh_name pr warn n m).
Proof.
  unfold finished_log. right. rewrite !in_app_iff. right. right.
  simpl. auto.
Qed.

Lemma arange_all (stop : nat) : Np.arange stop 1 = seq 0 stop.
Proof.
  unfold Np.arange. replace (stop + 1 - 1)%nat with stop by lia.
  rewrite Nat.div_1_r. rewrite <- (map_id (seq 0 stop)) at 2.
  apply map_ext. intros k. apply Nat.mul_1_r.
Qed.

(** Indexing an array with all its indices gives the array. *)
Lemma take_all (a : list R) : Np.take a (seq 0 (length a)) = inr a.
Proof.
  rewrite take_in_bounds by (intros i Hi; apply in_seq in Hi; lia).
  f_equal. apply (nth_ext _ _ 0 0).
  - now rewrite length_map, length_seq.
  - intros i Hi. rewrite length_map, length_seq in Hi.
    now apply (map_range_nth (fun i => nth i a 0) (length a) i 0).
Qed.

Lemma normalize_length (s : list R) :
  length (Librosa.normalize s) = length s.
Proof.
  unfold Librosa.normalize.
  destruct (Req_dec_T (Librosa.max_abs s) 0); [reflexivity | apply length_map].
Qed.

Lemma maybe_normalize_length (props : SoundWaveformProperties) (s : list R) :
  length (maybe_normalize props s) = length s.
Proof.
  unfold maybe_normalize.
  destruct (normalize_amp props); [apply normalize_length | reflexivity].
Qed.

(** C8.  A requested resolution above the number N >= 1 of available
    samples keeps exactly N samples: the index array is 0, 1, ..., N-1,
    every retained channel is the whole channel (normalized when asked)
    and so holds N samples, the cap is printed as a warning, the run
    reports no error and finishes with a mesh built from those N
    samples. *)
Theorem resolution_capped_at_available_samples
    (props : SoundWaveformProperties) (mesh_name : string) (loaded : ndarray) :
  rectangular loaded ->
  (1 <= shape_last loaded)%nat ->
  (shape_last loaded < resolution props)%nat ->
  let N := shape_last loaded in
  exists log m,
    execute props mesh_name loaded = (log, FINISHED)
    /\ In (Print (Warning_resolution_capped N)) log
    /\ In (Print (Downsampled_to N)) log
    /\ (forall k, In (Print (Downsampled_to k)) log -> k = N)
    /\ (forall msg, ~ In (Report ERROR msg) log)
    /\ In (FromPydata m) log
    /\ length (verts m) = (verts_per_sample (vis_style props) * N)%nat
    /\ exists pr ad vars,
         handle_stereo props loaded = (pr, inr ad)
         /\ shape_last ad = N
         /\ downsample_indices props N
            = ([Print (Warning_resolution_capped N)], inr (seq 0 N))
         /\ sample_channels props ad (seq 0 N) = ([], inr vars)
         /\ vars = match ad with
                   | Arr1 d =>
                       mkLocals None None (Some (maybe_normalize props d))
                   | Arr2 c0 c1 =>
                       mkLocals (Some (maybe_normalize props c0))
                                (Some (maybe_normalize props c1)) None
                   end
         /\ retained_arrays vars <> []
         /\ Forall (fun a => length a = N) (retained_arrays vars)
         /\ mesh_generation props ad vars N = inr m.
Proof.
  intros Hrect HN Hcap N.
  destruct (execute_run props mesh_name loaded Hrect HN ltac:(lia))
    as (pr & ad & vars & m & Hhs & Hpr & Hsample & Hm & Hrun).
  fold N in Hrun, Hm, Hsample.
  rewrite Nat.min_r, Nat.div_same in Hrun, Hm, Hsample by (fold N; lia).
  rewrite arange_all in Hsample.
  rewrite arange_step_one in Hrun, Hm.
  assert (Hwarn : cap_warning props N = [Print (Warning_resolution_capped N)]).
  { unfold cap_warning, N. apply Nat.ltb_lt in Hcap. now rewrite Hcap. }
  destruct (handle_stereo_run props loaded)
    as (pr' & ad' & Hhs' & _ & Hred & _ & Hshape).
  rewrite Hhs in Hhs'. injection Hhs' as <- <-.
  destruct (Hshape Hrect) as [Hrect' HN']. fold N in HN'.
  assert (Hvars : vars = match ad with
                         | Arr1 d =>
                             mkLocals None None (Some (maybe_normalize props d))
                         | Arr2 c0 c1 =>
                             mkLocals (Some (maybe_normalize props c0))
                                      (Some (maybe_normalize props c1)) None
                         end).
  { destruct ad as [d | c0 c1]; simpl in HN', Hrect', Hred;
      unfold sample_channels in Hsample.
    - rewrite <- HN', take_all in Hsample.
      cbn [bind lift ret app] in Hsample. now injection Hsample as <-.
    - destruct Hred as [Hs Hv]. rewrite Hs, Hv in Hsample.
      cbn [stereo_handling_eqb vis_style_eqb andb] in Hsample.
      rewrite <- HN' in Hsample. rewrite take_all in Hsample.
      rewrite Hrect', take_all in Hsample.
      cbn [bind lift ret app] in Hsample. now injection Hsample as <-. }
  eexists. exists m. split; [exact Hrun|].
  repeat split.
  - unfold finished_log. right. rewrite Hwarn, !in_app_iff. right. left.
    now left.
  - unfold finished_log. right. rewrite !in_app_iff. right. right. now left.
  - intros k. now apply downsampled_in_finished_log.
  - intros msg. now apply no_error_in_finished_log.
  - apply from_pydata_in_finished_log.
  - now apply mesh_generation_verts in Hm.
  - exists pr, ad, vars. split; [exact Hhs|]. split; [exact HN'|].
    split.
    { rewrite downsample_indices_run by (fold N; lia). fold N.
      unfold cap_warning in Hwarn. fold N. rewrite Hwarn.
      rewrite Nat.min_r, Nat.div_same, arange_all by (fold N; lia).
      reflexivity. }
    split; [exact Hsample|]. split; [exact Hvars|].
    split; [|split; [|exact Hm]].
    + rewrite Hvars. destruct ad; discriminate.
    + rewrite Hvars. destruct ad as [d | c0 c1]; simpl in HN', Hrect';
        cbn [retained_arrays sampled_data_l sampled_data_r sampled_data app];
        repeat constructor; rewrite maybe_normalize_length; lia.
Qed.

(** C2, as stated, fails for the RADIAL style: a buffer of one sample
    gives n = 1, and the mesh handed to [from_pydata] has the face
    (0, 0, 1, 1), not zero faces. *)
Lemma radial_single_sample_has_a_face :
  exists m,
    snd (execute radial_props "tone_Waveform" (Arr1 [0.5])) = FINISHED
    /\ In (Print (Downsampled_to 1))
          (fst (execute radial_props "tone_Waveform" (Arr1 [0.5])))
    /\ In (FromPydata m)
          (fst (execute radial_props "tone_Waveform" (Arr1 [0.5])))
    /\ length (verts m) = 2%nat
    /\ faces m = [(0, 0, 1, 1)%nat]
    /\ length (faces m) <> 0%nat.
Proof.
  eexists. split; [reflexivity|]. split; [simpl; auto|].
  split; [simpl; do 5 right; left; reflexivity|].
  split; [reflexivity|]. split; [reflexivity|]. discriminate.
Qed.

(** C2, amended.  When the run keeps a single sample (n = 1) it is
    accepted: [execute] finishes and hands a mesh to [from_pydata].  That
    mesh has 2 vertices and no face for LINEAR, 2 vertices and the one
    face (0, 0, 1, 1) for RADIAL, and 1 vertex, no edge and no face for
    SPIRAL. *)
Theorem single_sample_is_accepted (props : SoundWaveformProperties)
    (mesh_name : string) (loaded : ndarray) :
  rectangular loaded ->
  (1 <= shape_last loaded)%nat ->
  (1 <= resolution props)%nat ->
  In (Print (Downsampled_to 1)) (fst (execute props mesh_name loaded)) ->
  exists m,
    snd (execute props mesh_name loaded) = FINISHED
    /\ In (FromPydata m) (fst (execute props mesh_name loaded))
    /\ (forall msg, ~ In (Report ERROR msg) (fst (execute props mesh_name loaded)))
    /\ match vis_style props with
       | LINEAR => length (verts m) = 2%nat /\ edges m = [] /\ faces m = []
       | RADIAL => length (verts m) = 2%nat /\ edges m = []
                   /\ faces m = [(0, 0, 1, 1)%nat]
       | SPIRAL => length (verts m) = 1%nat /\ edges m = [] /\ faces m = []
       end.
Proof.
  intros Hrect HN Hr Hone.
  destruct (execute_run props mesh_name loaded Hrect HN Hr)
    as (pr & ad & vars & m & Hhs & Hpr & Hsample & Hm & Hrun).
  rewrite Hrun in *. cbn [fst snd] in *.
  apply downsampled_in_finished_log in Hone; [|assumption].
  rewrite <- Hone in Hm.
  exists m. split; [reflexivity|]. split; [apply from_pydata_in_finished_log|].
  split; [intros msg; now apply no_error_in_finished_log|].
  pose proof (mesh_generation_verts _ _ _ _ _ Hm) as Hv.
  pose proof (mesh_generation_inv _ _ _ _ _ Hm) as Hc.
  destruct (vis_style props); destruct Hc as [He Hf]; simpl in Hv;
    rewrite Hv, He, Hf; repeat split.
Qed.

(** ** Vertex positions *)

Lemma all_zero_nth (s : list R) (i : nat) :
  Forall (fun a => a = 0) s -> nth i s 0 = 0.
Proof.
  intros Hz. destruct (Nat.lt_ge_cases i (length s)) as [Hi | Hi].
  - rewrite Forall_forall in Hz. apply Hz. now apply nth_In.
  - now apply nth_overflow.
Qed.

Lemma unit_circle_distance (a sx : R) :
  0 <= sx -> sqrt ((cos a * sx) * (cos a * sx) + (sin a * sx) * (sin a * sx)) = sx.
Proof.
  intros Hsx.
  replace ((cos a * sx) * (cos a * sx) + (sin a * sx) * (sin a * sx))
    with (((sin a)² + (cos a)²) * sx²) by (unfold Rsqr; ring).
  rewrite sin2_cos2, Rmult_1_l. now apply sqrt_Rsqr.
Qed.

Lemma ring_verts_nth (n : nat) (s : list R) (sx sy sz thickness : R) (i : nat) :
  (i < n)%nat ->
  let base_x := cos (Radial.angle n i) * (Radial.center_offset + nth i s 0 * sy) * sx in
  let base_y := sin (Radial.angle n i) * (Radial.center_offset + nth i s 0 * sy) * sx in
  let z_offset := thickness * 0.5 * sz in
  nth (2 * i) (Radial.ring_verts n s sx sy sz thickness) (0, 0, 0)
    = (base_x, base_y, - z_offset)
  /\ nth (2 * i + 1) (Radial.ring_verts n s sx sy sz thickness) (0, 0, 0)
     = (base_x, base_y, z_offset).
Proof.
  intros Hi.
  exact (pair_loop_nth
    (fun i => (cos (Radial.angle n i) * (Radial.center_offset + nth i s 0 * sy) * sx,
               sin (Radial.angle n i) * (Radial.center_offset + nth i s 0 * sy) * sx,
               - (thickness * 0.5 * sz)))
    (fun i => (cos (Radial.angle n i) * (Radial.center_offset + nth i s 0 * sy) * sx,
               sin (Radial.angle n i) * (Radial.center_offset + nth i s 0 * sy) * sx,
               thickness * 0.5 * sz))
    n i (0, 0, 0) Hi).
Qed.

Lemma verts_stereo_nth (n : nat) (l r : list R) (sx sy sz : R) (i : nat) :
  (i < n)%nat ->
  let x := norm_time n i * sx in
  let amp_l := nth i l 0 * sy in
  let amp_r := nth i r 0 * sz in
  nth (2 * i) (Linear.verts_stereo n l r sx sy sz) (0, 0, 0)
    = (x, amp_l, - amp_r * 0.5)
  /\ nth (2 * i + 1) (Linear.verts_stereo n l r sx sy sz) (0, 0, 0)
     = (x, amp_l, amp_r * 0.5).
Proof.
  intros Hi.
  exact (pair_loop_nth
    (fun i => (norm_time n i * sx, nth i l 0 * sy, - (nth i r 0 * sz) * 0.5))
    (fun i => (norm_time n i * sx, nth i l 0 * sy, nth i r 0 * sz * 0.5))
    n i (0, 0, 0) Hi).
Qed.

(** C5.  The RADIAL style places, for each i in [0, n), a pair of
    vertices at angle (i/n)*2*pi, at planar position
    (cos(angle)*radius*scaleX, sin(angle)*radius*scaleX) with
    radius = 1 + sample[i]*scaleY, and at z = -/+ (thickness*scaleZ)/2.
    When every amplitude is 0, every vertex is at planar distance
    1*scaleX from the origin ([scale_x] is a property with [min=0.01]). *)
Theorem radial_vertex_positions (props : SoundWaveformProperties)
    (ad : ndarray) (vars : locals) (s : list R) (n : nat) (m : mesh_data) :
  vis_style props = RADIAL ->
  sampled_data vars = Some s ->
  mesh_generation props ad vars n = inr m ->
  0.01 <= scale_x props ->
  (forall i, (i < n)%nat ->
     let angle := (INR i / INR n) * 2 * PI in
     let radius := 1 + nth i s 0 * scale_y props in
     let x := cos angle * radius * scale_x props in
     let y := sin angle * radius * scale_x props in
     let half := (mesh_thickness props * scale_z props) / 2 in
     nth (2 * i) (verts m) (0, 0, 0) = (x, y, - half)
     /\ nth (2 * i + 1) (verts m) (0, 0, 0) = (x, y, half))
  /\ (Forall (fun a => a = 0) s ->
      Forall (fun v => planar_distance v = 1 * scale_x props) (verts m)).
Proof.
  intros Hstyle Hs Hm Hsx.
  unfold mesh_generation in Hm. rewrite Hstyle, Hs in Hm.
  cbn [read_in_loop] in Hm. injection Hm as <-. cbn [verts]. split.
  - intros i Hi.
    destruct (ring_verts_nth n s (scale_x props) (scale_y props)
                (scale_z props) (mesh_thickness props) i Hi) as [H0 H1].
    rewrite H0, H1. unfold Radial.angle, Radial.center_offset. cbv zeta.
    replace 1.0 with 1 by lra.
    replace (mesh_thickness props * 0.5 * scale_z props)
      with (mesh_thickness props * scale_z props / 2) by lra.
    split; reflexivity.
  - intros Hz. apply Forall_forall. intros v Hv.
    unfold Radial.ring_verts in Hv.
    apply in_flat_map in Hv as (i & _ & Hv). cbv zeta in Hv.
    rewrite (all_zero_nth s i Hz) in Hv.
    unfold Radial.center_offset in Hv.
    replace (1.0 + 0 * scale_y props) with 1 in Hv by lra.
    rewrite Rmult_1_l. rewrite !Rmult_1_r in Hv.
    destruct Hv as [<- | [<- | []]]; cbn [planar_distance];
      apply unit_circle_distance; lra.
Qed.

(** C6.  Z_AXIS handling of a two-channel buffer with the LINEAR style:
    sample i gives exactly two vertices; their y is left[i]*scaleY and
    their z is -/+ (right[i]*scaleZ)/2, where left and right are the
    prepared channels 0 and 1. *)
Theorem stereo_z_axis_vertices (props : SoundWaveformProperties)
    (c0 c1 : list R) (indices : list nat) (log : list event)
    (vars : locals) (m : mesh_data) :
  stereo_handling props = Z_AXIS ->
  vis_style props = LINEAR ->
  sample_channels props (Arr2 c0 c1) indices = (log, inr vars) ->
  mesh_generation props (Arr2 c0 c1) vars (length indices) = inr m ->
  exists left0 right0,
    Np.take c0 indices = inr left0
    /\ Np.take c1 indices = inr right0
    /\ let left := maybe_normalize props left0 in
       let right := maybe_normalize props right0 in
       let n := length indices in
       length (verts m) = (2 * n)%nat
       /\ forall i, (i < n)%nat ->
            let x := norm_time n i * scale_x props in
            let y := nth i left 0 * scale_y props in
            let half := (nth i right 0 * scale_z props) / 2 in
            nth (2 * i) (verts m) (0, 0, 0) = (x, y, - half)
            /\ nth (2 * i + 1) (verts m) (0, 0, 0) = (x, y, half).
Proof.
  intros Hs Hv Hsample Hm.
  unfold sample_channels in Hsample. rewrite Hs, Hv in Hsample.
  cbn [stereo_handling_eqb vis_style_eqb andb] in Hsample.
  destruct (Np.take c0 indices) as [e | left0]; [discriminate|].
  destruct (Np.take c1 indices) as [e | right0]; [discriminate|].
  cbn [bind lift ret app] in Hsample. injection Hsample as _ <-.
  exists left0, right0. split; [reflexivity|]. split; [reflexivity|].
  unfold mesh_generation in Hm. rewrite Hs, Hv in Hm.
  cbn in Hm. injection Hm as <-. cbn [verts]. split.
  - unfold Linear.verts_stereo.
    rewrite pair_loop_length, range_length. reflexivity.
  - intros i Hi.
    destruct (verts_stereo_nth (length indices)
                (maybe_normalize props left0) (maybe_normalize props right0)
                (scale_x props) (scale_y props) (scale_z props) i Hi)
      as [H0 H1].
    rewrite H0, H1. cbv zeta.
    set (amp_r := nth i (maybe_normalize props right0) 0 * scale_z props).
    replace (- amp_r * 0.5) with (- (amp_r / 2)) by lra.
    replace (amp_r * 0.5) with (amp_r / 2) by lra.
    split; reflexivity.
Qed.

(** ** Amplitude and scale *)

Lemma scaled_nth (c : R) (s : list R) (i : nat) :
  nth i (map (Rmult c) s) 0 = c * nth i s 0.
Proof.
  rewrite <- (map_nth (Rmult c) s 0 i). f_equal. symmetry. apply Rmult_0_r.
Qed.

Lemma scaled_amplitude (c : R) (s : list R) (i : nat) :
  nth i (map (Rmult c) s) 0 * 1 = nth i s 0 * c.
Proof. rewrite scaled_nth. ring. Qed.

(** C10.  On a mono prepared sequence the samples and [scale_y] enter
    the mesh only through their product: samples c*s with scaleY = 1
    and samples s with scaleY = c give the same vertices, edges and
    faces, for each of the three styles. *)
Theorem amplitude_scale_exchange (props : SoundWaveformProperties)
    (d d' : list R) (s : list R) (c : R) (n : nat) :
  mesh_generation (with_scale_y props 1) (Arr1 d)
      (mkLocals None None (Some (map (Rmult c) s))) n
  = mesh_generation (with_scale_y props c) (Arr1 d')
      (mkLocals None None (Some s)) n.
Proof.
  unfold mesh_generation, with_scale_y.
  cbn [vis_style scale_x scale_y scale_z mesh_thickness stereo_handling
       sampled_data ndim read_in_loop Nat.ltb Nat.leb andb].
  destruct (vis_style props); do 2 f_equal.
  - unfold Linear.verts_mono. apply flat_map_ext. intros i.
    cbv zeta. now rewrite scaled_amplitude.
  - unfold Radial.ring_verts. apply flat_map_ext. intros i.
    cbv zeta. now rewrite scaled_amplitude.
  - unfold Spiral.line_verts. cbv zeta. apply map_ext. intros i.
    now rewrite scaled_amplitude.
Qed.

(** ** Normalization *)

Lemma max_abs_nonneg (s : list R) : 0 <= Librosa.max_abs s.
Proof.
  unfold Librosa.max_abs.
  induction s as [|x s IH]; simpl; [lra|].
  eapply Rle_trans; [exact IH | apply Rmax_r].
Qed.

Lemma max_abs_scale (s : list R) (m : R) :
  0 < m ->
  Librosa.max_abs (map (fun x => x / m) s) = Librosa.max_abs s / m.
Proof.
  intros Hm. unfold Librosa.max_abs.
  induction s as [|x s IH]; simpl; [lra|].
  rewrite IH. unfold Rdiv.
  rewrite Rabs_mult, (Rabs_pos_eq (/ m))
    by (left; now apply Rinv_0_lt_compat).
  rewrite !(Rmult_comm _ (/ m)).
  apply RmaxRmult. left. now apply Rinv_0_lt_compat.
Qed.

Lemma normalize_unit (s : list R) :
  Librosa.max_abs s = 1 -> Librosa.normalize s = s.
Proof.
  intros H1. unfold Librosa.normalize. rewrite H1.
  destruct (Req_dec_T 1 0) as [Habs | _]; [lra|].
  rewrite <- (map_id s) at 2. apply map_ext. intros x. lra.
Qed.

Lemma normalize_zero (s : list R) :
  Librosa.max_abs s = 0 -> Librosa.normalize s = s.
Proof.
  intros H0. unfold Librosa.normalize. rewrite H0.
  destruct (Req_dec_T 0 0) as [_ | Hne]; [reflexivity | contradiction].
Qed.

Lemma normalize_max (s : list R) :
  Librosa.max_abs s <> 0 -> Librosa.max_abs (Librosa.normalize s) = 1.
Proof.
  intros Hne. unfold Librosa.normalize.
  destruct (Req_dec_T (Librosa.max_abs s) 0) as [H0 | _]; [contradiction|].
  pose proof (max_abs_nonneg s) as Hpos.
  rewrite max_abs_scale by lra. field. exact Hne.
Qed.

Lemma normalize_idempotent (s : list R) :
  Librosa.normalize (Librosa.normalize s) = Librosa.normalize s.
Proof.
  destruct (Req_dec_T (Librosa.max_abs s) 0) as [H0 | Hne].
  - now rewrite !(normalize_zero s H0).
  - apply normalize_unit. now apply normalize_max.
Qed.

(** C9.  With [normalize_amp] set, normalization leaves a sequence whose
    maximum absolute value is 1 as it is, leaves a sequence whose maximum
    absolute value is 0 as it is (it divides by nothing), and applying
    it twice is the same as applying it once. *)
Theorem normalization_idempotent_and_zero_safe
    (props : SoundWaveformProperties) (s : list R) :
  normalize_amp props = true ->
  (Librosa.max_abs s = 1 -> maybe_normalize props s = s)
  /\ (Librosa.max_abs s = 0 -> maybe_normalize props s = s)
  /\ maybe_normalize props (maybe_normalize props s) = maybe_normalize props s.
Proof.
  intros Hon. unfold maybe_normalize. rewrite Hon.
  split; [apply normalize_unit|]. split; [apply normalize_zero|].
  apply normalize_idempotent.
Qed.

(** ** How many samples the downsampling keeps *)

(** With k = min(resolution, N) and step = N // k, the index array has
    ceil(N / step) entries: at least k, at most N, and exactly k only
    when k divides N. *)
Lemma sample_count_bounds (N r : nat) :
  (1 <= N)%nat -> (1 <= r)%nat ->
  let k := Nat.min r N in
  let n := length (Np.arange N (N / k)) in
  (k <= n <= N)%nat /\ (n = k <-> N mod k = 0)%nat.
Proof.
  intros HN Hr k n. unfold n. rewrite arange_length.
  assert (Hk : (1 <= k <= N)%nat) by (unfold k; lia).
  pose proof (step_positive r N HN Hr) as Hq. fold k in Hq.
  pose proof (Nat.div_mod_eq N k) as Hdm.
  pose proof (Nat.mod_upper_bound N k ltac:(lia)) as Hrem.
  set (q := (N / k)%nat) in *. set (rem := (N mod k)%nat) in *.
  split; [split|split].
  - apply Nat.div_le_lower_bound; nia.
  - apply Nat.Div0.div_le_upper_bound; nia.
  - intros Heq. destruct (Nat.eq_dec rem 0) as [|Hpos]; [assumption|].
    assert ((k + 1) <= (N + q - 1) / q)%nat
      by (apply Nat.div_le_lower_bound; nia).
    lia.
  - intros Hz. symmetry.
    apply (Nat.div_unique (N + q - 1) q k (q - 1)); nia.
Qed.

(** C1.  The code does not keep min(resolution, N) samples: on a mono
    buffer of 15 samples with resolution 10 the step is 15 // 10 = 1,
    every one of the 15 samples is kept, and the mesh handed to
    [from_pydata] has 30 vertices. *)
Theorem fifteen_samples_at_resolution_ten :
  downsample_indices linear_props 15 = ([], inr (seq 0 15))
  /\ sample_channels linear_props fifteen_samples (seq 0 15)
     = ([], inr (mkLocals None None (Some (repeat 0.5 15))))
  /\ snd (execute linear_props "clip_Waveform" fifteen_samples) = FINISHED
  /\ In (Print (Downsampled_to 15))
        (fst (execute linear_props "clip_Waveform" fifteen_samples))
  /\ exists m,
       In (FromPydata m)
          (fst (execute linear_props "clip_Waveform" fifteen_samples))
       /\ length (verts m) = 30%nat
       /\ Nat.min (resolution linear_props) (shape_last fifteen_samples) = 10%nat.
Proof.
  split; [reflexivity|]. split; [reflexivity|]. split; [reflexivity|].
  split; [cbn; auto|].
  eexists. split; [cbn; do 4 right; left; reflexivity|].
  split; reflexivity.
Qed.

(** ** Concrete runs *)
Lemma indices_below_vertex_count_witness :
  mesh_generation radial_props (Arr1 three_samples)
      (mkLocals None None (Some three_samples)) 3 = inr radial_three
  /\ Forall (edge_in_range (length (verts radial_three))) (edges radial_three)
  /\ Forall (face_in_range (length (verts radial_three))) (faces radial_three).
Proof.
  split; [reflexivity|].
  apply (indices_below_vertex_count radial_props (Arr1 three_samples)
           (mkLocals None None (Some three_samples)) 3).
  reflexivity.
Defined.

Lemma vertex_and_face_counts_witness :
  mesh_generation radial_props (Arr1 three_samples)
      (mkLocals None None (Some three_samples)) 3 = inr radial_three
  /\ length (verts radial_three) = 6%nat
  /\ length (faces radial_three) = 3%nat.
Proof.
  split; [reflexivity|].
  destruct (vertex_and_face_counts radial_props (Arr1 three_samples)
              (mkLocals None None (Some three_samples)) 3 radial_three
              eq_refl) as [Hv Hf].
  split; [apply Hv; lia | apply Hf; lia].
Defined.

Lemma radial_vertex_positions_witness :
  vis_style radial_props = RADIAL
  /\ 0.01 <= scale_x radial_props
  /\ Forall (fun v => planar_distance v = 1 * scale_x radial_props)
       (verts silent_ring).
Proof.
  assert (Hsx : 0.01 <= scale_x radial_props) by (simpl; lra).
  split; [reflexivity|]. split; [exact Hsx|].
  apply (radial_vertex_positions radial_props (Arr1 [0; 0; 0])
           (mkLocals None None (Some [0; 0; 0])) [0; 0; 0] 3 silent_ring
           eq_refl eq_refl eq_refl Hsx).
  repeat constructor.
Defined.

Lemma stereo_z_axis_vertices_witness :
  sample_channels stereo_props (Arr2 [0.5; -0.5] [0.25; 0.75]) [0; 1]%nat
    = ([], inr (mkLocals (Some [0.5; -0.5]) (Some [0.25; 0.75]) None))
  /\ mesh_generation stereo_props (Arr2 [0.5; -0.5] [0.25; 0.75])
       (mkLocals (Some [0.5; -0.5]) (Some [0.25; 0.75]) None) 2
     = inr stereo_pair
  /\ exists left0 right0,
       Np.take [0.5; -0.5] [0; 1]%nat = inr left0
       /\ Np.take [0.25; 0.75] [0; 1]%nat = inr right0
       /\ length (verts stereo_pair) = 4%nat.
Proof.
  split; [reflexivity|]. split; [reflexivity|].
  destruct (stereo_z_axis_vertices stereo_props [0.5; -0.5] [0.25; 0.75]
              [0; 1]%nat [] (mkLocals (Some [0.5; -0.5]) (Some [0.25; 0.75]) None)
              stereo_pair eq_refl eq_refl eq_refl eq_refl)
    as (left0 & right0 & Hl & Hr & Hlen & _).
  exists left0, right0. repeat split; assumption.
Defined.

Lemma empty_buffer_is_an_error_witness :
  shape_last (Arr1 []) = 0%nat
  /\ snd (execute linear_props "silence_Waveform" (Arr1 [])) = CANCELLED.
Proof.
  split; [reflexivity|].
  apply (empty_buffer_is_an_error linear_props "silence_Waveform" (Arr1 [])).
  reflexivity.
Defined.

Lemma resolution_capped_at_available_samples_witness :
  (shape_last (Arr1 three_samples) < resolution linear_props)%nat
  /\ exists log m vars,
       execute linear_props "clip_Waveform" (Arr1 three_samples) = (log, FINISHED)
       /\ In (Print (Warning_resolution_capped 3)) log
       /\ In (Print (Downsampled_to 3)) log
       /\ length (verts m) = 6%nat
       /\ sample_channels linear_props (Arr1 three_samples) (seq 0 3)
          = ([], inr vars)
       /\ Forall (fun a => length a = 3%nat) (retained_arrays vars).
Proof.
  assert (Hcap : (shape_last (Arr1 three_samples) < resolution linear_props)%nat)
    by (simpl; lia).
  split; [exact Hcap|].
  destruct (resolution_capped_at_available_samples linear_props
              "clip_Waveform" (Arr1 three_samples) I ltac:(simpl; lia) Hcap)
    as (log & m & Hrun & Hwarn & Hdown & _ & _ & _ & Hlen
        & pr & ad & vars & Hhs & _ & _ & Hsample & _ & _ & Hkept & _).
  injection Hhs as _ <-.
  exists log, m, vars. repeat split; assumption.
Defined.

Lemma single_sample_is_accepted_witness :
  In (Print (Downsampled_to 1))
     (fst (execute radial_props "tone_Waveform" (Arr1 [0.5])))
  /\ exists m,
       snd (execute radial_props "tone_Waveform" (Arr1 [0.5])) = FINISHED
       /\ In (FromPydata m)
             (fst (execute radial_props "tone_Waveform" (Arr1 [0.5])))
       /\ faces m = [(0, 0, 1, 1)%nat].
Proof.
  assert (Hone : In (Print (Downsampled_to 1))
                   (fst (execute radial_props "tone_Waveform" (Arr1 [0.5]))))
    by (simpl; auto).
  split; [exact Hone|].
  destruct (single_sample_is_accepted radial_props "tone_Waveform" (Arr1 [0.5])
              I ltac:(simpl; lia) ltac:(simpl; lia) Hone)
    as (m & Hst & Hin & _ & _ & _ & Hf).
  exists m. repeat split; assumption.
Defined.

Lemma max_abs_one : Librosa.max_abs [1] = 1.
Proof.
  unfold Librosa.max_abs. simpl. rewrite Rabs_R1. apply Rmax_left. lra.
Qed.

Lemma max_abs_silence : Librosa.max_abs [0; 0] = 0.
Proof.
  unfold Librosa.max_abs. simpl. rewrite Rabs_R0.
  rewrite (Rmax_left 0 0) by lra. apply Rmax_left. lra.
Qed.

Lemma normalization_idempotent_and_zero_safe_witness :
  normalize_amp normalizing_props = true
  /\ maybe_normalize normalizing_props [1] = [1]
  /\ maybe_normalize normalizing_props [0; 0] = [0; 0].
Proof.
  split; [reflexivity|]. split.
  - destruct (normalization_idempotent_and_zero_safe normalizing_props [1]
                eq_refl) as [Hunit _].
    apply Hunit. exact max_abs_one.
  - destruct (normalization_idempotent_and_zero_safe normalizing_props [0; 0]
                eq_refl) as [_ [Hzero _]].
    apply Hzero. exact max_abs_silence.
Defined.


(** * Further properties of the operator *)

(** ** Outcomes of a run *)

Lemma downsample_indices_inv (props : SoundWaveformProperties) (N : nat)
    (w : list event) (indices : list nat) :
  downsample_indices props N = (w, inr indices) ->
  (1 <= N)%nat /\ (1 <= resolution props)%nat
  /\ w = cap_warning props N
  /\ indices = Np.arange N (N / Nat.min (resolution props) N).
Proof.
  intros H.
  destruct (Nat.eq_dec N 0) as [-> | HN].
  { destruct (downsample_indices_empty props) as (w' & H' & _).
    rewrite H' in H. discriminate. }
  destruct (Nat.eq_dec (resolution props) 0) as [Hr | Hr].
  { unfold downsample_indices, floordiv in H. rewrite Hr in H.
    replace (N <? 0)%nat with false in H
      by (symmetry; apply Nat.ltb_ge; lia).
    cbn in H. discriminate. }
  rewrite downsample_indices_run in H by lia.
  injection H as <- <-. unfold cap_warning. repeat split; lia.
Qed.

Lemma downsample_indices_raises (props : SoundWaveformProperties) (N : nat)
    (w : list event) (e : exn) :
  downsample_indices props N = (w, inl e) ->
  e = ZeroDivisionError
  /\ (N = 0%nat \/ resolution props = 0%nat)
  /\ w = cap_warning props N.
Proof.
  intros H.
  destruct (Nat.eq_dec N 0) as [-> | HN].
  { unfold downsample_indices, floordiv, cap_warning in *.
    destruct (resolution props); cbn in H; injection H as <- <-; auto. }
  destruct (Nat.eq_dec (resolution props) 0) as [Hr | Hr].
  { unfold downsample_indices, floordiv, cap_warning in *. rewrite Hr in *.
    replace (N <? 0)%nat with false in *
      by (symmetry; apply Nat.ltb_ge; lia).
    cbn in H. injection H as <- <-. auto. }
  rewrite downsample_indices_run in H by lia. discriminate.
Qed.

Lemma take_raises (a : list R) (indices : list nat) (e : exn) :
  Np.take a indices = inl e -> e = IndexError.
Proof.
  destruct indices as [|i rest]; simpl; [discriminate|].
  destruct (nth_error a i); [destruct (Np.take a rest)|];
    intros H; try discriminate; now injection H.
Qed.

(** [sample_channels] prints nothing, fails with [IndexError] only, and
    binds every name that [mesh_generation] goes on to read. *)
Lemma sample_channels_outcome (props : SoundWaveformProperties)
    (ad : ndarray) (indices : list nat) (n : nat) :
  (exists e, sample_channels props ad indices = ([], inl e) /\ e = IndexError)
  \/ (exists vars m,
        sample_channels props ad indices = ([], inr vars)
        /\ mesh_generation props ad vars n = inr m).
Proof.
  unfold sample_channels, mesh_generation.
  destruct ad as [d | c0 c1].
  - destruct (Np.take d indices) as [e | s] eqn:Ht.
    + left. exists e. split; [reflexivity | eapply take_raises; eassumption].
    + right. cbn [bind lift ret app sampled_data ndim Nat.ltb Nat.leb andb].
      destruct (vis_style props); cbn;
        do 2 eexists; (split; [reflexivity | cbn; reflexivity]).
  - destruct (stereo_handling props) eqn:Hs; cbn.
    + destruct (Np.take (Librosa.to_mono c0 c1) indices) as [e | s] eqn:Ht.
      * left. exists e. split; [reflexivity | eapply take_raises; eassumption].
      * right. destruct (vis_style props); cbn;
        do 2 eexists; (split; [reflexivity | cbn; reflexivity]).
    + destruct (vis_style props) eqn:Hv; cbn.
      * destruct (Np.take c0 indices) as [e | l] eqn:Hl; cbn.
        { left. exists e. split; [reflexivity | eapply take_raises; eassumption]. }
        destruct (Np.take c1 indices) as [e | r] eqn:Hr; cbn.
        { left. exists e. split; [reflexivity | eapply take_raises; eassumption]. }
        right. do 2 eexists; (split; [reflexivity | cbn; reflexivity]).
      * destruct (Np.take c0 indices) as [e | s] eqn:Ht; cbn.
        { left. exists e. split; [reflexivity | eapply take_raises; eassumption]. }
        right. do 2 eexists; (split; [reflexivity | cbn; reflexivity]).
      * destruct (Np.take c0 indices) as [e | s] eqn:Ht; cbn.
        { left. exists e. split; [reflexivity | eapply take_raises; eassumption]. }
        right. do 2 eexists; (split; [reflexivity | cbn; reflexivity]).
Qed.

Lemma no_host_call_filter (log : list event) :
  Forall (fun ev => is_host_call ev = false) log -> filter is_host_call log = [].
Proof.
  induction 1 as [|ev log Hev _ IH]; simpl; [reflexivity|].
  now rewrite Hev.
Qed.

Lemma cap_warning_no_host_call (props : SoundWaveformProperties) (N : nat) :
  Forall (fun ev => is_host_call ev = false) (cap_warning props N).
Proof.
  unfold cap_warning. destruct (N <? resolution props)%nat; repeat constructor.
Qed.

Lemma finished_log_calls (mesh_name : string) (pr : list event)
    (props : SoundWaveformProperties) (N n : nat) (m : mesh_data) :
  incl pr channel_prints ->
  filter is_host_call (finished_log mesh_name pr (cap_warning props N) n m)
  = object_creation_calls mesh_name m.
Proof.
  intros Hpr. unfold finished_log. cbn [filter is_host_call].
  rewrite !filter_app.
  rewrite (no_host_call_filter pr) by now apply channel_prints_no_host_call.
  rewrite (no_host_call_filter (cap_warning props N))
    by apply cap_warning_no_host_call.
  reflexivity.
Qed.

(** The two ways a run can end.  Either every stage succeeds and the
    log is a finished log, or one stage raises and the log is what was
    printed so far followed by the report of the handler. *)
Lemma execute_outcomes (props : SoundWaveformProperties) (mesh_name : string)
    (loaded : ndarray) :
  exists pr ad,
    handle_stereo props loaded = (pr, inr ad)
    /\ incl pr channel_prints
    /\ ((exists indices vars m,
           downsample_indices props (shape_last ad)
             = (cap_warning props (shape_last ad), inr indices)
           /\ (1 <= length indices)%nat
           /\ sample_channels props ad indices = ([], inr vars)
           /\ mesh_generation props ad vars (length indices) = inr m
           /\ execute props mesh_name loaded
              = (finished_log mesh_name pr (cap_warning props (shape_last ad))
                   (length indices) m, FINISHED))
        \/ (exists e,
              (e = ZeroDivisionError
                 /\ (shape_last ad = 0%nat \/ resolution props = 0%nat)
               \/ e = IndexError
                 /\ (1 <= shape_last ad)%nat /\ (1 <= resolution props)%nat)
              /\ execute props mesh_name loaded
                 = (cancelled_log pr (cap_warning props (shape_last ad)) e,
                    CANCELLED))).
Proof.
  destruct (handle_stereo_run props loaded)
    as (pr & ad & Hhs & Hpr & _ & _ & _).
  exists pr, ad. split; [exact Hhs|]. split; [exact Hpr|].
  unfold execute, execute_try, cancelled_log.
  cbn [bind emit]. rewrite Hhs. cbn [bind].
  destruct (downsample_indices props (shape_last ad)) as [w [e | indices]] eqn:Hds.
  - right. apply downsample_indices_raises in Hds as (-> & Hwhy & ->).
    exists ZeroDivisionError. split; [now left|].
    cbn [bind app]. now rewrite <- app_assoc.
  - apply downsample_indices_inv in Hds as (HN & Hr & -> & Hidx).
    assert (Hn : (1 <= length indices)%nat).
    { rewrite Hidx. apply arange_nonempty; [exact HN|].
      now apply step_positive. }
    destruct (sample_channels_outcome props ad indices (length indices))
      as [(e & Hs & ->) | (vars & m & Hs & Hm)]; cbn [bind]; rewrite Hs;
      cbn [bind].
    + right. exists IndexError. split; [right; auto|].
      cbn [app]. rewrite app_nil_r. now rewrite <- app_assoc.
    + left. exists indices, vars, m. repeat split; try assumption.
      cbn [emit lift bind]. rewrite Hm. unfold create_object.
      destruct (verts m) as [|v vs] eqn:Hv.
      { apply mesh_generation_verts in Hm. rewrite Hv in Hm. simpl in Hm.
        destruct (vis_style props); simpl in Hm; lia. }
      cbn [bind emit ret app]. reflexivity.
Qed.

Lemma report_in_finished_log (mesh_name : string) (pr : list event)
    (props : SoundWaveformProperties) (N n : nat) (m : mesh_data)
    (level : report_level) (msg : message) :
  incl pr channel_prints ->
  In (Report level msg) (finished_log mesh_name pr (cap_warning props N) n m) ->
  level = INFO /\ msg = Generated_waveform_mesh mesh_name.
Proof.
  intros Hpr Hin. scan_finished_log Hpr Hin. now injection Hin as <- <-.
Qed.

Lemma report_in_cancelled_log (pr : list event)
    (props : SoundWaveformProperties) (N : nat) (e : exn)
    (level : report_level) (msg : message) :
  incl pr channel_prints ->
  In (Report level msg) (cancelled_log pr (cap_warning props N) e) ->
  level = ERROR /\ msg = Failed_to_process e.
Proof.
  intros Hpr Hin. unfold cancelled_log in Hin.
  destruct Hin as [Hin | Hin]; [discriminate|].
  rewrite !in_app_iff in Hin. destruct Hin as [Hin | [Hin | Hin]].
  - apply Hpr in Hin. unfold channel_prints in Hin.
    destruct Hin as [Hin | [Hin | [Hin | []]]]; discriminate.
  - unfold cap_warning in Hin.
    destruct (N <? resolution props)%nat; simpl in Hin;
      [destruct Hin as [Hin | []]; discriminate | contradiction].
  - destruct Hin as [Hin | [Hin | []]]; [|discriminate].
    now injection Hin as <- <-.
Qed.

Lemma cancelled_log_calls (pr : list event) (props : SoundWaveformProperties)
    (N : nat) (e : exn) :
  incl pr channel_prints ->
  filter is_host_call (cancelled_log pr (cap_warning props N) e) = [].
Proof.
  intros Hpr. unfold cancelled_log. cbn [filter is_host_call].
  rewrite !filter_app.
  rewrite (no_host_call_filter pr) by now apply channel_prints_no_host_call.
  rewrite (no_host_call_filter (cap_warning props N))
    by apply cap_warning_no_host_call.
  reflexivity.
Qed.

Lemma handle_stereo_shape_le (props : SoundWaveformProperties)
    (loaded ad : ndarray) (pr : list event) :
  handle_stereo props loaded = (pr, inr ad) ->
  (shape_last ad <= shape_last loaded)%nat.
Proof.
  unfold handle_stereo. destruct loaded as [d | c0 c1].
  - intros H. cbn in H. injection H as _ <-. lia.
  - destruct (stereo_handling props); cbn.
    + intros H. injection H as _ <-. simpl. unfold Librosa.to_mono.
      rewrite length_map, length_combine. lia.
    + destruct (vis_style props); cbn; intros H; injection H as _ <-;
        simpl; lia.
Qed.

(** X1.  A run that returns FINISHED has made exactly the Blender data
    calls that create one mesh datablock, fill it from a non-empty
    vertex list, update it, create one object, link it and select it,
    once each and in this order; and it was given a buffer with at least
    one sample and a resolution of at least 1. *)
Theorem finished_run_created_one_object (props : SoundWaveformProperties)
    (mesh_name : string) (loaded : ndarray) :
  snd (execute props mesh_name loaded) = FINISHED ->
  (exists m,
     verts m <> []
     /\ filter is_host_call (fst (execute props mesh_name loaded))
        = object_creation_calls mesh_name m)
  /\ (1 <= shape_last loaded)%nat
  /\ (1 <= resolution props)%nat.
Proof.
  destruct (execute_outcomes props mesh_name loaded)
    as (pr & ad & Hhs & Hpr & [(indices & vars & m & Hds & Hn & _ & Hm & Hrun)
                              | (e & Hwhy & Hrun)]);
    rewrite Hrun; cbn [fst snd]; intros Hst; [|discriminate].
  apply downsample_indices_inv in Hds as (HN & Hr & _ & _).
  apply handle_stereo_shape_le in Hhs.
  split; [|split; [lia | exact Hr]].
  exists m. split.
  - intros Hnil. apply mesh_generation_verts in Hm. rewrite Hnil in Hm.
    simpl in Hm. destruct (vis_style props); simpl in Hm; lia.
  - now apply finished_log_calls.
Qed.

(** X2.  Every report of a run is either the INFO report of a finished
    run, naming the object it created, or the ERROR report of a
    cancelled run, naming the exception; in particular the WARNING
    that no vertices were generated is never reported. *)
Theorem reports_are_info_or_error (props : SoundWaveformProperties)
    (mesh_name : string) (loaded : ndarray)
    (level : report_level) (msg : message) :
  In (Report level msg) (fst (execute props mesh_name loaded)) ->
  (level = INFO /\ msg = Generated_waveform_mesh mesh_name
   /\ snd (execute props mesh_name loaded) = FINISHED)
  \/ (level = ERROR /\ snd (execute props mesh_name loaded) = CANCELLED
      /\ exists e, msg = Failed_to_process e).
Proof.
  destruct (execute_outcomes props mesh_name loaded)
    as (pr & ad & _ & Hpr & [(indices & vars & m & _ & _ & _ & _ & Hrun)
                            | (e & _ & Hrun)]);
    rewrite Hrun; cbn [fst snd]; intros Hin.
  - left. apply report_in_finished_log in Hin as [-> ->]; auto.
  - right. apply report_in_cancelled_log in Hin as [-> ->]; eauto.
Qed.

Lemma rectangular_run_cases (props : SoundWaveformProperties)
    (mesh_name : string) (loaded : ndarray) :
  rectangular loaded ->
  (1 <= resolution props)%nat ->
  (shape_last loaded = 0%nat
   /\ exists pr N,
        incl pr channel_prints
        /\ execute props mesh_name loaded
           = (cancelled_log pr (cap_warning props N) ZeroDivisionError,
              CANCELLED))
  \/ ((1 <= shape_last loaded)%nat
      /\ exists pr N n m,
           incl pr channel_prints
           /\ execute props mesh_name loaded
              = (finished_log mesh_name pr (cap_warning props N) n m,
                 FINISHED)).
Proof.
  intros Hrect Hr.
  destruct (Nat.eq_dec (shape_last loaded) 0) as [H0 | HN].
  - left. split; [exact H0|].
    destruct (handle_stereo_run props loaded)
      as (pr' & ad' & Hhs' & _ & _ & Hzero & _).
    specialize (Hzero H0).
    destruct (execute_outcomes props mesh_name loaded)
      as (pr & ad & Hhs & Hpr & [(indices & vars & m & Hds & _)
                                | (e & Hwhy & Hrun)]);
      rewrite Hhs in Hhs'; injection Hhs' as _ <-.
    + apply downsample_indices_inv in Hds. lia.
    + destruct Hwhy as [[-> _] | [_ [HN _]]]; [|lia].
      exists pr, (shape_last ad). split; assumption.
  - right. split; [lia|].
    destruct (execute_run props mesh_name loaded Hrect ltac:(lia) Hr)
      as (pr & ad & vars & m & _ & Hpr & _ & _ & Hrun).
    eexists pr, _, _, m. split; [exact Hpr | exact Hrun].
Qed.

(** X3.  On a rectangular buffer with a resolution of at least 1, the
    handler reports a ZeroDivisionError exactly when the buffer has zero
    samples. *)
Theorem division_error_exactly_when_empty (props : SoundWaveformProperties)
    (mesh_name : string) (loaded : ndarray) :
  rectangular loaded ->
  (1 <= resolution props)%nat ->
  In (Report ERROR (Failed_to_process ZeroDivisionError))
     (fst (execute props mesh_name loaded))
  <-> shape_last loaded = 0%nat.
Proof.
  intros Hrect Hr.
  destruct (rectangular_run_cases props mesh_name loaded Hrect Hr)
    as [(H0 & pr & N & Hpr & Hrun) | (HN & pr & N & n & m & Hpr & Hrun)];
    rewrite Hrun; cbn [fst].
  - split; [intros _; exact H0|]. intros _.
    unfold cancelled_log. right. rewrite !in_app_iff. right. right. now left.
  - split; [|lia]. intros Hin.
    now apply no_error_in_finished_log in Hin.
Qed.

(** ** What the downsampling keeps *)

Lemma arange_nth (stop step k : nat) :
  (k < length (Np.arange stop step))%nat ->
  nth k (Np.arange stop step) 0%nat = (k * step)%nat.
Proof.
  rewrite arange_length. intros Hk. apply nth_error_nth.
  unfold Np.arange. rewrite nth_error_map.
  rewrite (nth_error_nth' _ 0%nat) by (rewrite length_seq; exact Hk).
  rewrite seq_nth by exact Hk. reflexivity.
Qed.

(** X4.  For N >= 1 available samples and a resolution r >= 1 the
    downsampling succeeds and keeps n samples with
    min(r, N) <= n <= N and n < 2 * min(r, N); n is exactly min(r, N)
    if and only if min(r, N) divides N. *)
Theorem downsample_count (props : SoundWaveformProperties) (N : nat) :
  (1 <= N)%nat -> (1 <= resolution props)%nat ->
  exists warn indices,
    downsample_indices props N = (warn, inr indices)
    /\ (Nat.min (resolution props) N <= length indices <= N)%nat
    /\ (length indices < 2 * Nat.min (resolution props) N)%nat
    /\ (length indices = Nat.min (resolution props) N
        <-> N mod Nat.min (resolution props) N = 0)%nat.
Proof.
  intros HN Hr. rewrite downsample_indices_run by assumption.
  do 2 eexists. split; [reflexivity|].
  destruct (sample_count_bounds N (resolution props) HN Hr) as [Hb Hiff].
  cbv zeta in Hb, Hiff. split; [exact Hb|]. split; [|exact Hiff].
  rewrite arange_length.
  pose proof (step_positive (resolution props) N HN Hr) as Hq.
  set (k := Nat.min (resolution props) N) in *.
  assert (Hk : (1 <= k <= N)%nat) by (unfold k; lia).
  pose proof (Nat.div_mod_eq N k) as Hdm.
  pose proof (Nat.mod_upper_bound N k ltac:(lia)) as Hrem.
  set (q := (N / k)%nat) in *. set (rem := (N mod k)%nat) in *.
  apply Nat.Div0.div_lt_upper_bound. nia.
Qed.

(** X5.  Downsampling is point sampling with a fixed stride: on a mono
    buffer the k-th index is k * step with step = N // min(r, N), and
    the k-th retained sample, before normalization, is the raw sample
    at that index; in particular the first raw sample is always kept. *)
Theorem retained_samples_are_strided (props : SoundWaveformProperties)
    (d : list R) :
  (1 <= length d)%nat -> (1 <= resolution props)%nat ->
  let N := length d in
  let step := (N / Nat.min (resolution props) N)%nat in
  exists warn indices s,
    downsample_indices props N = (warn, inr indices)
    /\ sample_channels props (Arr1 d) indices
       = ([], inr (mkLocals None None (Some (maybe_normalize props s))))
    /\ length s = length indices
    /\ (1 <= step)%nat
    /\ nth 0 s 0 = nth 0 d 0
    /\ forall k, (k < length indices)%nat ->
         nth k indices 0%nat = (k * step)%nat
         /\ (k * step < N)%nat
         /\ nth k s 0 = nth (k * step) d 0.
Proof.
  intros HN Hr N step.
  pose proof (step_positive (resolution props) N HN Hr) as Hstep.
  fold step in Hstep.
  assert (Hb : forall i, In i (Np.arange N step) -> (i < length d)%nat)
    by (intros i Hi; eapply arange_bound; eassumption).
  exists (cap_warning props N), (Np.arange N step),
    (map (fun i => nth i d 0) (Np.arange N step)).
  split; [now apply downsample_indices_run|].
  split.
  { unfold sample_channels. rewrite (take_in_bounds d _ Hb). reflexivity. }
  split; [apply length_map|]. split; [exact Hstep|].
  assert (Hnth : forall k, (k < length (Np.arange N step))%nat ->
            nth k (map (fun i => nth i d 0) (Np.arange N step)) 0
            = nth (k * step) d 0).
  { intros k Hk. apply nth_error_nth. rewrite nth_error_map.
    rewrite (nth_error_nth' _ 0%nat) by exact Hk.
    cbn [option_map]. now rewrite arange_nth. }
  split.
  - rewrite Hnth by (apply arange_nonempty; assumption). reflexivity.
  - intros k Hk. split; [now apply arange_nth|]. split.
    + rewrite <- (arange_nth N step k Hk). apply Hb. now apply nth_In.
    + now apply Hnth.
Qed.

(** ** Channels and settings that a run does not read *)

(** X6.  With Z_AXIS handling and a style other than LINEAR the right
    channel of a stereo buffer has no influence: the run is the same for
    every right channel, and it returns the same status and makes the
    same Blender data calls as the run on the left channel alone. *)
Theorem right_channel_ignored_outside_linear
    (props : SoundWaveformProperties) (mesh_name : string)
    (c0 c1 c1' : list R) :
  stereo_handling props = Z_AXIS ->
  vis_style props <> LINEAR ->
  execute props mesh_name (Arr2 c0 c1) = execute props mesh_name (Arr2 c0 c1')
  /\ snd (execute props mesh_name (Arr2 c0 c1))
     = snd (execute props mesh_name (Arr1 c0))
  /\ filter is_host_call (fst (execute props mesh_name (Arr2 c0 c1)))
     = filter is_host_call (fst (execute props mesh_name (Arr1 c0)))
  /\ In (Print Using_only_first_channel)
        (fst (execute props mesh_name (Arr2 c0 c1))).
Proof.
  intros Hs Hv.
  unfold execute, execute_try, handle_stereo. rewrite Hs.
  destruct (vis_style props) eqn:Hstyle; [contradiction| |];
    cbn [stereo_handling_eqb vis_style_eqb andb bind emit ret app shape_last];
    match goal with
    | |- context [bind (downsample_indices ?p ?n) ?k] =>
        destruct (bind (downsample_indices p n) k) as [lg [e | st]]
    end; cbn [fst snd filter is_host_call app];
    repeat split; simpl; auto.
Qed.

(** X7.  On a mono buffer the stereo handling setting has no influence
    on the run. *)
Theorem stereo_handling_ignored_for_mono (props : SoundWaveformProperties)
    (mesh_name : string) (d : list R) (sh : stereo_handling_t) :
  execute (with_stereo_handling props sh) mesh_name (Arr1 d)
  = execute props mesh_name (Arr1 d).
Proof.
  unfold execute, execute_try, handle_stereo, downsample_indices,
    sample_channels, maybe_normalize, mesh_generation, with_stereo_handling.
  cbn [resolution scale_x scale_y scale_z vis_style stereo_handling
       normalize_amp mesh_thickness ndim Nat.ltb Nat.leb andb].
  reflexivity.
Qed.

(** X8.  The mesh thickness setting has no influence on the run for the
    SPIRAL style, nor for the LINEAR style when a stereo buffer is
    handled as Z_AXIS (the right channel gives the thickness). *)
Theorem mesh_thickness_ignored (props : SoundWaveformProperties)
    (mesh_name : string) (loaded : ndarray) (thickness : R) :
  vis_style props = SPIRAL
  \/ (vis_style props = LINEAR /\ stereo_handling props = Z_AXIS
      /\ ndim loaded = 2%nat) ->
  execute (with_mesh_thickness props thickness) mesh_name loaded
  = execute props mesh_name loaded.
Proof.
  intros Hcase.
  unfold execute, execute_try, handle_stereo, downsample_indices,
    sample_channels, maybe_normalize, mesh_generation, with_mesh_thickness.
  cbn [resolution scale_x scale_y scale_z vis_style stereo_handling
       normalize_amp mesh_thickness].
  destruct Hcase as [Hv | (Hv & Hs & Hdim)]; rewrite Hv.
  - reflexivity.
  - destruct loaded as [d | c0 c1]; [discriminate|]. rewrite Hs.
    reflexivity.
Qed.


(** ** Shape of the LINEAR ribbon and of the SPIRAL line *)

Lemma norm_time_first (n : nat) : (2 <= n)%nat -> norm_time n 0 = 0.
Proof.
  intros Hn. unfold norm_time.
  replace (1 <? n)%nat with true by (symmetry; apply Nat.ltb_lt; lia).
  simpl. unfold Rdiv. apply Rmult_0_l.
Qed.

Lemma norm_time_last (n : nat) : (2 <= n)%nat -> norm_time n (n - 1) = 1.
Proof.
  intros Hn. unfold norm_time.
  replace (1 <? n)%nat with true by (symmetry; apply Nat.ltb_lt; lia).
  unfold Rdiv. apply Rinv_r. apply not_0_INR. lia.
Qed.

Lemma norm_time_single : norm_time 1 0 = 0.5.
Proof. reflexivity. Qed.

Lemma norm_time_increasing (n i j : nat) :
  (2 <= n)%nat -> (i < j)%nat -> norm_time n i < norm_time n j.
Proof.
  intros Hn Hij. unfold norm_time.
  replace (1 <? n)%nat with true by (symmetry; apply Nat.ltb_lt; lia).
  unfold Rdiv. apply Rmult_lt_compat_r.
  - apply Rinv_0_lt_compat. apply lt_0_INR. lia.
  - now apply lt_INR.
Qed.

Lemma norm_time_range (n i : nat) : (i < n)%nat -> 0 <= norm_time n i <= 1.
Proof.
  intros Hi. unfold norm_time.
  destruct (1 <? n)%nat eqn:Hn; [|lra].
  apply Nat.ltb_lt in Hn.
  assert (Hpos : 0 < INR (n - 1)) by (apply lt_0_INR; lia).
  assert (Hle : INR i <= INR (n - 1)) by (apply le_INR; lia).
  pose proof (pos_INR i) as Hi0.
  split.
  - apply Rmult_le_pos; [exact Hi0 | left; now apply Rinv_0_lt_compat].
  - apply (Rmult_le_reg_r (INR (n - 1))); [exact Hpos|].
    unfold Rdiv. rewrite Rmult_assoc, Rinv_l by lra. lra.
Qed.

Lemma verts_mono_nth (n : nat) (s : list R) (sx sy sz thickness : R) (i : nat) :
  (i < n)%nat ->
  let x := norm_time n i * sx in
  let amp := nth i s 0 * sy in
  nth (2 * i) (Linear.verts_mono n s sx sy sz thickness) (0, 0, 0)
    = (x, amp, - thickness * 0.5 * sz)
  /\ nth (2 * i + 1) (Linear.verts_mono n s sx sy sz thickness) (0, 0, 0)
     = (x, amp, thickness * 0.5 * sz).
Proof.
  intros Hi.
  exact (pair_loop_nth
    (fun i => (norm_time n i * sx, nth i s 0 * sy, - thickness * 0.5 * sz))
    (fun i => (norm_time n i * sx, nth i s 0 * sy, thickness * 0.5 * sz))
    n i (0, 0, 0) Hi).
Qed.

(** X9.  The LINEAR ribbon of a mono prepared sequence: sample i gives
    the two vertices (t_i*scaleX, sample[i]*scaleY, -/+ thickness*scaleZ/2)
    whose time t_i lies in [0, 1]; with at least two samples the ribbon
    starts at x = 0, ends at x = scaleX, and x grows strictly with i when
    scaleX is positive; a single sample sits at x = scaleX/2. *)
Theorem linear_ribbon_positions (props : SoundWaveformProperties)
    (ad : ndarray) (vars : locals) (s : list R) (n : nat) (m : mesh_data) :
  vis_style props = LINEAR ->
  ndim ad = 1%nat ->
  sampled_data vars = Some s ->
  mesh_generation props ad vars n = inr m ->
  (forall i, (i < n)%nat ->
     let half := (mesh_thickness props * scale_z props) / 2 in
     0 <= norm_time n i <= 1
     /\ nth (2 * i) (verts m) (0, 0, 0)
        = (norm_time n i * scale_x props, nth i s 0 * scale_y props, - half)
     /\ nth (2 * i + 1) (verts m) (0, 0, 0)
        = (norm_time n i * scale_x props, nth i s 0 * scale_y props, half))
  /\ ((2 <= n)%nat ->
      vertex_x (nth 0 (verts m) (0, 0, 0)) = 0
      /\ vertex_x (nth (2 * (n - 1)) (verts m) (0, 0, 0)) = scale_x props
      /\ (0 < scale_x props ->
          forall i j, (i < j < n)%nat ->
            vertex_x (nth (2 * i) (verts m) (0, 0, 0))
            < vertex_x (nth (2 * j) (verts m) (0, 0, 0))))
  /\ (n = 1%nat ->
      vertex_x (nth 0 (verts m) (0, 0, 0)) = scale_x props / 2).
Proof.
  intros Hstyle Hdim Hs Hm.
  unfold mesh_generation in Hm. rewrite Hstyle, Hdim, Hs in Hm.
  cbn in Hm. injection Hm as <-. cbn [verts].
  assert (Hx : forall i, (i < n)%nat ->
            vertex_x (nth (2 * i)
              (Linear.verts_mono n s (scale_x props) (scale_y props)
                 (scale_z props) (mesh_thickness props)) (0, 0, 0))
            = norm_time n i * scale_x props).
  { intros i Hi.
    destruct (verts_mono_nth n s (scale_x props) (scale_y props)
                (scale_z props) (mesh_thickness props) i Hi) as [H0 _].
    now rewrite H0. }
  split; [|split].
  - intros i Hi.
    destruct (verts_mono_nth n s (scale_x props) (scale_y props)
                (scale_z props) (mesh_thickness props) i Hi) as [H0 H1].
    rewrite H0, H1. cbv zeta.
    replace (- mesh_thickness props * 0.5 * scale_z props)
      with (- (mesh_thickness props * scale_z props / 2)) by lra.
    replace (mesh_thickness props * 0.5 * scale_z props)
      with (mesh_thickness props * scale_z props / 2) by lra.
    split; [now apply norm_time_range|]. split; reflexivity.
  - intros Hn. split; [|split].
    + pose proof (Hx 0%nat ltac:(lia)) as H0.
      change (2 * 0)%nat with 0%nat in H0.
      rewrite H0, norm_time_first by exact Hn. lra.
    + rewrite Hx by lia. rewrite norm_time_last by exact Hn. lra.
    + intros Hsx i j Hij. rewrite !Hx by lia.
      apply Rmult_lt_compat_r; [exact Hsx|].
      apply norm_time_increasing; lia.
  - intros ->. pose proof (Hx 0%nat ltac:(lia)) as H0.
    change (2 * 0)%nat with 0%nat in H0.
    rewrite H0, norm_time_single. lra.
Qed.

Lemma line_verts_nth (n : nat) (s : list R) (sx sy sz : R) (i : nat) :
  (i < n)%nat ->
  let t := norm_time n i in
  nth i (Spiral.line_verts n s sx sy sz) (0, 0, 0)
  = (cos (t * 2 * PI * Spiral.revolutions) * (t * (1.0 * sx)),
     sin (t * 2 * PI * Spiral.revolutions) * (t * (1.0 * sx)),
     nth i s 0 * sy * sz).
Proof.
  intros Hi. unfold Spiral.line_verts. cbv zeta.
  now rewrite map_range_nth by exact Hi.
Qed.

Lemma five_turns : 1 * 2 * PI * Spiral.revolutions = 0 + 2 * INR 5 * PI.
Proof. unfold Spiral.revolutions. simpl INR. lra. Qed.

(** X10.  The SPIRAL line: sample i gives one vertex at angle
    t_i*2*pi*5 and at planar distance t_i*scaleX from the z axis, with
    height sample[i]*scaleY*scaleZ.  With at least two samples the line
    starts on the z axis and, after five full turns, ends at
    (scaleX, 0). *)
Theorem spiral_line_positions (props : SoundWaveformProperties)
    (ad : ndarray) (vars : locals) (s : list R) (n : nat) (m : mesh_data) :
  vis_style props = SPIRAL ->
  sampled_data vars = Some s ->
  mesh_generation props ad vars n = inr m ->
  0.01 <= scale_x props ->
  (forall i, (i < n)%nat ->
     let t := norm_time n i in
     nth i (verts m) (0, 0, 0)
     = (cos (t * 2 * PI * 5) * (t * scale_x props),
        sin (t * 2 * PI * 5) * (t * scale_x props),
        nth i s 0 * scale_y props * scale_z props)
     /\ planar_distance (nth i (verts m) (0, 0, 0)) = t * scale_x props)
  /\ ((2 <= n)%nat ->
      nth 0 (verts m) (0, 0, 0)
        = (0, 0, nth 0 s 0 * scale_y props * scale_z props)
      /\ nth (n - 1) (verts m) (0, 0, 0)
         = (scale_x props, 0, nth (n - 1) s 0 * scale_y props * scale_z props)).
Proof.
  intros Hstyle Hs Hm Hsx.
  unfold mesh_generation in Hm. rewrite Hstyle, Hs in Hm.
  cbn [read_in_loop] in Hm. injection Hm as <-. cbn [verts].
  split.
  - intros i Hi. cbv zeta. rewrite line_verts_nth by exact Hi. cbv zeta.
    unfold Spiral.revolutions.
    replace 5.0 with 5 by lra.
    replace (1.0 * scale_x props) with (scale_x props) by lra.
    split; [reflexivity|]. cbn [planar_distance].
    apply unit_circle_distance.
    apply Rmult_le_pos; [apply norm_time_range; exact Hi | lra].
  - intros Hn. split.
    + rewrite line_verts_nth by lia. cbv zeta.
      rewrite norm_time_first by exact Hn.
      repeat f_equal; ring.
    + rewrite line_verts_nth by lia. cbv zeta.
      rewrite norm_time_last by exact Hn.
      rewrite five_turns, cos_period, sin_period, cos_0, sin_0.
      repeat f_equal; lra.
Qed.

(** ** Connectivity: coverage and sides *)

Lemma index_split (v : nat) :
  exists i, (v = 2 * i \/ v = 2 * i + 1)%nat.
Proof.
  exists (v / 2)%nat. pose proof (Nat.div_mod_eq v 2) as H.
  pose proof (Nat.mod_upper_bound v 2 ltac:(lia)). lia.
Qed.

Lemma linear_face_in (n i : nat) :
  (i < n - 1)%nat ->
  In (2 * i, 2 * i + 2, 2 * i + 3, 2 * i + 1)%nat (Linear.ribbon_faces n).
Proof.
  intros Hi. unfold Linear.ribbon_faces. apply in_map_iff.
  exists i. split; [|now apply in_range].
  cbv zeta. rewrite (Nat.mul_comm i 2). reflexivity.
Qed.

Lemma radial_face_in (n i : nat) :
  (i < n)%nat ->
  In (2 * i, 2 * ((i + 1) mod n), 2 * ((i + 1) mod n) + 1, 2 * i + 1)%nat
     (Radial.ring_faces n).
Proof.
  intros Hi. unfold Radial.ring_faces. apply in_map_iff.
  exists i. split; [|now apply in_range].
  cbv zeta. rewrite (Nat.mul_comm i 2), (Nat.mul_comm ((i + 1) mod n) 2).
  reflexivity.
Qed.

Lemma spiral_edge_in (n i : nat) :
  (i < n - 1)%nat -> In (i, i + 1)%nat (Spiral.line_edges n).
Proof.
  intros Hi. unfold Spiral.line_edges. apply in_map_iff.
  exists i. split; [reflexivity | now apply in_range].
Qed.

(** X11.  No vertex is left unconnected once there are two samples: in
    a LINEAR or RADIAL mesh every vertex is a corner of some face, in a
    SPIRAL mesh every vertex is an end of some edge.  For RADIAL this
    already holds with one sample. *)
Theorem every_vertex_is_connected (props : SoundWaveformProperties)
    (ad : ndarray) (vars : locals) (n : nat) (m : mesh_data) (v : nat) :
  mesh_generation props ad vars n = inr m ->
  (v < length (verts m))%nat ->
  (2 <= n)%nat \/ (vis_style props = RADIAL /\ (1 <= n)%nat) ->
  match vis_style props with
  | LINEAR | RADIAL => exists f, In f (faces m) /\ face_corner v f
  | SPIRAL => exists e, In e (edges m) /\ edge_end v e
  end.
Proof.
  intros Hm Hv Hn.
  pose proof (mesh_generation_verts _ _ _ _ _ Hm) as Hlen.
  pose proof (mesh_generation_inv _ _ _ _ _ Hm) as Hc.
  rewrite Hlen in Hv.
  destruct (vis_style props); destruct Hc as [He Hf];
    cbn [verts_per_sample] in Hv.
  - destruct Hn as [Hn | [Habs _]]; [|discriminate].
    rewrite Hf. destruct (index_split v) as (i & Hi).
    destruct (Nat.lt_ge_cases i (n - 1)) as [Hlt | Hge].
    + eexists. split; [apply (linear_face_in n i Hlt)|]. simpl. lia.
    + eexists. split; [apply (linear_face_in n (n - 2)); lia|]. simpl. lia.
  - rewrite Hf. destruct (index_split v) as (i & Hi).
    eexists. split; [apply (radial_face_in n i); lia|]. simpl. lia.
  - destruct Hn as [Hn | [Habs _]]; [|discriminate].
    rewrite He. destruct (Nat.lt_ge_cases v (n - 1)) as [Hlt | Hge].
    + eexists. split; [apply (spiral_edge_in n v Hlt)|]. simpl. lia.
    + eexists. split; [apply (spiral_edge_in n (n - 2)); lia|]. simpl. lia.
Qed.

(** X12.  The LINEAR ribbon lists 2*(n-1) edges, and they are exactly
    the long sides of its faces: for every face (a, b, c, d) the bottom
    side (a, b) and the top side (d, c) are edges, and every edge is the
    bottom or the top side of some face. *)
Theorem linear_edges_are_face_sides (props : SoundWaveformProperties)
    (ad : ndarray) (vars : locals) (n : nat) (m : mesh_data) :
  vis_style props = LINEAR ->
  mesh_generation props ad vars n = inr m ->
  length (edges m) = (2 * (n - 1))%nat
  /\ (forall a b c d, In (a, b, c, d) (faces m) ->
        In (a, b) (edges m) /\ In (d, c) (edges m))
  /\ (forall a b, In (a, b) (edges m) ->
        exists c d, In (a, b, c, d) (faces m) \/ In (c, d, b, a) (faces m)).
Proof.
  intros Hstyle Hm.
  pose proof (mesh_generation_inv _ _ _ _ _ Hm) as Hc.
  rewrite Hstyle in Hc. destruct Hc as [-> ->].
  unfold Linear.ribbon_edges, Linear.ribbon_faces.
  split; [|split].
  - now rewrite pair_loop_length, range_length.
  - intros a b c d Hin. apply in_map_iff in Hin as (i & Heq & Hi).
    cbv zeta in Heq. injection Heq as <- <- <- <-.
    split; apply in_flat_map; exists i; (split; [exact Hi|]); simpl; auto.
  - intros a b Hin. apply in_flat_map in Hin as (i & Hi & Hin).
    cbv zeta in Hin. destruct Hin as [Heq | [Heq | []]];
      injection Heq as <- <-.
    + exists (i * 2 + 3)%nat, (i * 2 + 1)%nat. left.
      apply in_map_iff. exists i. split; [reflexivity | exact Hi].
    + exists (i * 2)%nat, (i * 2 + 2)%nat. right.
      apply in_map_iff. exists i. split; [reflexivity | exact Hi].
Qed.

Lemma wrap_differs (n i : nat) :
  (2 <= n)%nat -> (i < n)%nat -> ((i + 1) mod n <> i)%nat.
Proof.
  intros Hn Hi. destruct (Nat.eq_dec (i + 1) n) as [Heq | Hne].
  - rewrite Heq, Nat.Div0.mod_same. lia.
  - rewrite Nat.mod_small by lia. lia.
Qed.

(** X13.  No generated face or edge is degenerate, except in the RADIAL
    ring of a single sample: the four corners of every face are four
    different vertices and the two ends of every edge differ, for LINEAR
    and SPIRAL at every sample count and for RADIAL from two samples
    on. *)
Theorem faces_and_edges_are_not_degenerate (props : SoundWaveformProperties)
    (ad : ndarray) (vars : locals) (n : nat) (m : mesh_data) :
  mesh_generation props ad vars n = inr m ->
  (vis_style props = RADIAL -> (2 <= n)%nat) ->
  Forall face_distinct (faces m)
  /\ Forall (fun e => fst e <> snd e) (edges m).
Proof.
  intros Hm Hn.
  pose proof (mesh_generation_inv _ _ _ _ _ Hm) as Hc.
  destruct (vis_style props); destruct Hc as [-> ->]; split;
    try (apply Forall_nil); apply Forall_forall.
  - intros f Hf. unfold Linear.ribbon_faces in Hf.
    apply in_map_iff in Hf as (i & <- & _). cbv zeta. unfold face_distinct.
    repeat constructor; simpl; lia.
  - intros e He. unfold Linear.ribbon_edges in He.
    apply in_flat_map in He as (i & _ & He).
    destruct He as [<- | [<- | []]]; simpl; lia.
  - intros f Hf. unfold Radial.ring_faces in Hf.
    apply in_map_iff in Hf as (i & <- & Hi). apply in_range in Hi.
    pose proof (wrap_differs n i (Hn eq_refl) Hi) as Hw.
    cbv zeta. unfold face_distinct. repeat constructor; simpl; lia.
  - intros e He. unfold Spiral.line_edges in He.
    apply in_map_iff in He as (i & <- & _). simpl. lia.
Qed.

(** ** The operator, the panel and the registration *)

Lemma core_host_calls (log : list event) :
  filter is_host_call log = [] ->
  forall e, In (Core e) (map Core log) -> is_host_call e = false.
Proof.
  intros Hnone e Hin. apply in_map_iff in Hin as (e' & Heq & Hin).
  injection Heq as ->.
  destruct (is_host_call e) eqn:He; [|reflexivity].
  assert (Hf : In e (filter is_host_call log))
    by (apply filter_In; split; assumption).
  rewrite Hnone in Hf. contradiction.
Qed.

Lemma empty_run_is_cancelled (props : SoundWaveformProperties)
    (mesh_name : string) (loaded : ndarray) :
  shape_last loaded = 0%nat ->
  snd (execute props mesh_name loaded) = CANCELLED
  /\ filter is_host_call (fst (execute props mesh_name loaded)) = [].
Proof.
  intros H0.
  destruct (handle_stereo_run props loaded)
    as (pr' & ad' & Hhs' & _ & _ & Hzero & _).
  specialize (Hzero H0).
  destruct (execute_outcomes props mesh_name loaded)
    as (pr & ad & Hhs & Hpr & [(indices & vars & m & Hds & _)
                              | (e & Hwhy & Hrun)]);
    rewrite Hhs in Hhs'; injection Hhs' as _ <-.
  - apply downsample_indices_inv in Hds. lia.
  - rewrite Hrun. cbn [fst snd]. split; [reflexivity|].
    now apply cancelled_log_calls.
Qed.

Lemma finished_run_had_samples (props : SoundWaveformProperties)
    (mesh_name : string) (loaded : ndarray) :
  snd (execute props mesh_name loaded) = FINISHED ->
  (1 <= shape_last loaded)%nat.
Proof.
  intros Hst. destruct (Nat.eq_dec (shape_last loaded) 0) as [H0 | HN]; [|lia].
  destruct (empty_run_is_cancelled props mesh_name loaded H0) as [Hc _].
  rewrite Hc in Hst. discriminate.
Qed.

(** X14.  End to end: the operator returns FINISHED only if librosa is
    available, the absolute path exists, the file decodes and the
    decoded buffer has at least one sample.  When librosa is missing,
    the path does not exist, the file does not decode or the decoded
    buffer is empty, it returns CANCELLED and has made no Blender data
    call. *)
Theorem operator_needs_a_decodable_nonempty_file (h : host)
    (props_filepath : string) (props : SoundWaveformProperties) :
  (snd (operator_execute h props_filepath props) = FINISHED ->
   LIBROSA_AVAILABLE h = true
   /\ os_path_exists h (bpy_path_abspath h props_filepath) = true
   /\ exists loaded,
        librosa_load h (bpy_path_abspath h props_filepath) = Some loaded
        /\ (1 <= shape_last loaded)%nat)
  /\ (LIBROSA_AVAILABLE h = false
      \/ os_path_exists h (bpy_path_abspath h props_filepath) = false
      \/ librosa_load h (bpy_path_abspath h props_filepath) = None
      \/ (exists loaded,
            librosa_load h (bpy_path_abspath h props_filepath) = Some loaded
            /\ shape_last loaded = 0%nat) ->
      snd (operator_execute h props_filepath props) = CANCELLED
      /\ forall e, In (Core e) (fst (operator_execute h props_filepath props)) ->
                   is_host_call e = false).
Proof.
  unfold operator_execute.
  destruct (LIBROSA_AVAILABLE h); cbn [negb].
  2:{ split; [discriminate|]. intros _. split; [reflexivity|].
      intros e [Hin | []]; discriminate. }
  destruct (os_path_exists h (bpy_path_abspath h props_filepath)); cbn [negb].
  2:{ split; [discriminate|]. intros _. split; [reflexivity|].
      intros e [Hin | []]; discriminate. }
  destruct (librosa_load h (bpy_path_abspath h props_filepath))
    as [loaded|] eqn:Hload.
  2:{ split; [discriminate|]. intros _. split; [reflexivity|].
      intros e [Hin | [Hin | [Hin | []]]]; discriminate. }
  set (mesh_name := (base_name h (bpy_path_abspath h props_filepath)
                       ++ "_Waveform")%string).
  split.
  - destruct (execute props mesh_name loaded) as [log st] eqn:Hrun.
    cbn [snd]. intros ->.
    pose proof (finished_run_had_samples props mesh_name loaded) as HN.
    rewrite Hrun in HN. repeat split; eauto.
  - intros [Habs | [Habs | [Habs | (loaded' & Heq & H0)]]];
      try discriminate.
    injection Heq as <-.
    destruct (empty_run_is_cancelled props mesh_name loaded H0) as [Hc Hnone].
    destruct (execute props mesh_name loaded) as [log st].
    cbn [fst snd] in *. split; [exact Hc|].
    intros e [Hin | Hin]; [discriminate|].
    revert e Hin. now apply core_host_calls.
Qed.

(** Closes a goal or a hypothesis about membership in the list of calls
    that [draw] makes in one of its branches. *)
Ltac scan_calls H :=
  simpl in H;
  repeat match type of H with
         | _ \/ _ => destruct H as [H | H]
         | False => contradiction
         | _ = _ => try discriminate
         end.

(** X15.  The panel draws the button of the operator exactly when
    librosa is available, the path is not empty and its absolute path
    exists; then the operator passes both of its guards and starts
    loading that path.  A [poll] that holds for a path equal to its
    absolute path means the button is drawn. *)
Theorem button_is_drawn_when_the_guards_pass (h : host)
    (props_filepath : string) (props : SoundWaveformProperties) :
  (draws_button (draw h props_filepath props)
   <-> LIBROSA_AVAILABLE h = true
       /\ props_filepath <> ""%string
       /\ os_path_exists h (bpy_path_abspath h props_filepath) = true)
  /\ (draws_button (draw h props_filepath props) ->
      exists rest st,
        operator_execute h props_filepath props
        = (PrintLoadingAudio (bpy_path_abspath h props_filepath) :: rest, st))
  /\ (poll h props_filepath = true ->
      bpy_path_abspath h props_filepath = props_filepath ->
      draws_button (draw h props_filepath props)).
Proof.
  assert (Hiff : draws_button (draw h props_filepath props)
                 <-> LIBROSA_AVAILABLE h = true
                     /\ props_filepath <> ""%string
                     /\ os_path_exists h (bpy_path_abspath h props_filepath) = true).
  { unfold draws_button, draw.
    destruct (LIBROSA_AVAILABLE h); cbn [negb].
    2:{ split; [intros (icon & H); scan_calls H
               | intros (Habs & _); discriminate]. }
    destruct (String.eqb_spec props_filepath "") as [Hempty | Hne];
      cbn [orb].
    { split; [intros (icon & H); scan_calls H
             | intros (_ & Habs & _); contradiction]. }
    destruct (os_path_exists h (bpy_path_abspath h props_filepath));
      cbn [negb].
    - split; [auto|]. intros _. exists "MOD_WAVE"%string.
      right. right. rewrite !in_app_iff. right. right. right.
      simpl. auto 10.
    - split; [intros (icon & H); scan_calls H
             | intros (_ & _ & Habs); discriminate]. }
  split; [exact Hiff|]. split.
  - intros Hb. apply Hiff in Hb as (Hlib & _ & Hex).
    unfold operator_execute. rewrite Hlib, Hex. cbn [negb].
    destruct (librosa_load h (bpy_path_abspath h props_filepath));
      [destruct (execute _ _ _)|]; eauto.
  - intros Hpoll Habs. apply Hiff. unfold poll in Hpoll.
    apply andb_prop in Hpoll as [Hpoll Hex].
    apply andb_prop in Hpoll as [Hlib Hne].
    rewrite Habs. repeat split; try assumption.
    intros ->. discriminate.
Qed.

(** X16.  When the panel draws the settings, it draws the stereo
    handling exactly for the LINEAR style and the mesh thickness exactly
    for the LINEAR and RADIAL styles, and every other setting always;
    where it hides the mesh thickness, the thickness has no influence on
    what the operator does. *)
Theorem panel_settings_by_style (h : host) (props_filepath : string)
    (props : SoundWaveformProperties) :
  LIBROSA_AVAILABLE h = true ->
  props_filepath <> ""%string ->
  os_path_exists h (bpy_path_abspath h props_filepath) = true ->
  (draws_prop P_stereo_handling (draw h props_filepath props)
   <-> vis_style props = LINEAR)
  /\ (draws_prop P_mesh_thickness (draw h props_filepath props)
      <-> vis_style props <> SPIRAL)
  /\ (forall name, name <> P_stereo_handling -> name <> P_mesh_thickness ->
        draws_prop name (draw h props_filepath props))
  /\ (~ draws_prop P_mesh_thickness (draw h props_filepath props) ->
      forall thickness,
        operator_execute h props_filepath (with_mesh_thickness props thickness)
        = operator_execute h props_filepath props).
Proof.
  intros Hlib Hne Hex.
  assert (Hdraw : draw h props_filepath props
          = [ ui_label on_layout "Input Audio:" "";
              ui_prop on_layout P_filepath "";
              ui_separator;
              ui_label on_layout "Generation Settings:" "";
              ui_column;
              ui_prop on_col P_resolution "";
              ui_prop on_col P_vis_style "";
              ui_prop on_col P_normalize_amp "" ] ++
            (match vis_style props with
             | LINEAR => [ ui_prop on_col P_stereo_handling "Stereo";
                           ui_prop on_col P_mesh_thickness "Z-Thickness" ]
             | RADIAL => [ ui_prop on_col P_mesh_thickness "Z-Thickness" ]
             | SPIRAL => []
             end) ++
            [ ui_separator;
              ui_label on_layout "Scaling:" "";
              ui_row;
              ui_prop on_row P_scale_x "X (Time/Shape)";
              ui_prop on_row P_scale_y "Y (Amplitude)";
              (if negb (vis_style_eqb (vis_style props) RADIAL)
               then ui_prop on_row P_scale_z "Z (Depth/Amp)"
               else ui_prop on_row P_scale_z "Z (Thickness)");
              ui_separator;
              ui_operator "soundwaveform.generate" "MOD_WAVE" ]).
  { unfold draw. rewrite Hlib, Hex.
    destruct (String.eqb_spec props_filepath "") as [Habs | _];
      [contradiction | reflexivity]. }
  assert (Hthick : draws_prop P_mesh_thickness (draw h props_filepath props)
                   <-> vis_style props <> SPIRAL).
  { rewrite Hdraw. unfold draws_prop.
    destruct (vis_style props); split;
      try discriminate; try (intros Habs; now contradiction Habs);
      try (intros _; exists on_col, "Z-Thickness"%string; simpl; auto 12).
    intros (parent & text & H). scan_calls H. }
  split; [|split; [exact Hthick | split]].
  - rewrite Hdraw. unfold draws_prop.
    destruct (vis_style props); split;
      try discriminate; try reflexivity;
      try (intros _; exists on_col, "Stereo"%string; simpl; auto 12);
      intros (parent & text & H); scan_calls H.
  - intros name Hs Ht. rewrite Hdraw. unfold draws_prop.
    destruct name; try contradiction;
      [ exists on_layout, ""%string
      | exists on_col, ""%string
      | exists on_col, ""%string
      | exists on_col, ""%string
      | exists on_row, "X (Time/Shape)"%string
      | exists on_row, "Y (Amplitude)"%string
      | destruct (vis_style props);
        [ exists on_row, "Z (Depth/Amp)"%string
        | exists on_row, "Z (Thickness)"%string
        | exists on_row, "Z (Depth/Amp)"%string ] ];
      try (destruct (vis_style props)); simpl; auto 20.
  - intros Hhidden thickness.
    assert (Hv : vis_style props = SPIRAL).
    { destruct (vis_style props) eqn:Hv; [| |reflexivity];
        exfalso; apply Hhidden, Hthick; discriminate. }
    unfold operator_execute, execute, execute_try, handle_stereo,
      downsample_indices, sample_channels, maybe_normalize, mesh_generation,
      with_mesh_thickness.
    cbn [resolution scale_x scale_y scale_z vis_style stereo_handling
         normalize_amp mesh_thickness].
    rewrite Hv. reflexivity.
Qed.

Lemma register_class_calls (cls : list string) :
  filter (fun c => negb (is_registry_print c)) (map register_class cls)
  = map register_class cls.
Proof. induction cls as [|c cls IH]; simpl; [reflexivity | now rewrite IH]. Qed.

Lemma unregister_class_calls (cls : list string) :
  filter (fun c => negb (is_registry_print c)) (map unregister_class cls)
  = map unregister_class cls.
Proof. induction cls as [|c cls IH]; simpl; [reflexivity | now rewrite IH]. Qed.

(** X17.  Whatever the tuple of classes, [unregister] undoes the calls
    of [register] one by one in the reverse order: it first deletes the
    scene pointer that [register] set last, then unregisters the classes
    from the last registered to the first. *)
Theorem unregister_undoes_register_in_reverse (cls : list string) :
  filter (fun c => negb (is_registry_print c)) (unregister_calls cls)
  = map undo_call
      (rev (filter (fun c => negb (is_registry_print c)) (register_calls cls))).
Proof.
  unfold unregister_calls, register_calls.
  cbn [app filter is_registry_print negb].
  rewrite filter_app, register_class_calls, unregister_class_calls.
  cbn [filter is_registry_print negb].
  rewrite rev_app_distr. cbn [rev app map undo_call]. f_equal.
  rewrite <- map_rev, map_map. reflexivity.
Qed.

(** ** Concrete runs for the further properties *)

Lemma reports_are_info_or_error_witness :
  In (Report INFO (Generated_waveform_mesh "clip_Waveform"))
     (fst (execute linear_props "clip_Waveform" (Arr1 three_samples)))
  /\ snd (execute linear_props "clip_Waveform" (Arr1 three_samples)) = FINISHED.
Proof.
  assert (Hin : In (Report INFO (Generated_waveform_mesh "clip_Waveform"))
                  (fst (execute linear_props "clip_Waveform" (Arr1 three_samples))))
    by (simpl; auto 20).
  split; [exact Hin|].
  destruct (reports_are_info_or_error linear_props "clip_Waveform"
              (Arr1 three_samples) INFO _ Hin)
    as [(_ & _ & Hst) | (Habs & _)]; [exact Hst | discriminate].
Defined.

Lemma division_error_exactly_when_empty_witness :
  rectangular (Arr1 three_samples)
  /\ (1 <= resolution linear_props)%nat
  /\ (In (Report ERROR (Failed_to_process ZeroDivisionError))
         (fst (execute linear_props "clip_Waveform" (Arr1 three_samples)))
      <-> shape_last (Arr1 three_samples) = 0%nat).
Proof.
  assert (Hr : (1 <= resolution linear_props)%nat) by (simpl; lia).
  split; [exact I|]. split; [exact Hr|].
  apply (division_error_exactly_when_empty linear_props "clip_Waveform"
           (Arr1 three_samples) I Hr).
Defined.

Lemma finished_run_created_one_object_witness :
  snd (execute linear_props "clip_Waveform" (Arr1 three_samples)) = FINISHED
  /\ (1 <= shape_last (Arr1 three_samples))%nat
  /\ exists m,
       verts m <> []
       /\ filter is_host_call
            (fst (execute linear_props "clip_Waveform" (Arr1 three_samples)))
          = object_creation_calls "clip_Waveform" m.
Proof.
  assert (Hst : snd (execute linear_props "clip_Waveform" (Arr1 three_samples))
                = FINISHED) by reflexivity.
  split; [exact Hst|].
  destruct (finished_run_created_one_object linear_props "clip_Waveform"
              (Arr1 three_samples) Hst) as (Hcalls & HN & _).
  split; [exact HN | exact Hcalls].
Defined.

Lemma downsample_count_witness :
  (1 <= 15)%nat /\ (1 <= resolution linear_props)%nat
  /\ exists warn indices,
       downsample_indices linear_props 15 = (warn, inr indices)
       /\ (length indices < 2 * Nat.min (resolution linear_props) 15)%nat.
Proof.
  assert (HN : (1 <= 15)%nat) by lia.
  assert (Hr : (1 <= resolution linear_props)%nat) by (simpl; lia).
  split; [exact HN|]. split; [exact Hr|].
  destruct (downsample_count linear_props 15 HN Hr)
    as (warn & indices & Hds & _ & Hlt & _).
  exists warn, indices. split; assumption.
Defined.

Lemma retained_samples_are_strided_witness :
  (1 <= length three_samples)%nat /\ (1 <= resolution linear_props)%nat
  /\ exists warn indices s,
       downsample_indices linear_props (length three_samples)
         = (warn, inr indices)
       /\ length s = length indices
       /\ nth 0 s 0 = nth 0 three_samples 0.
Proof.
  assert (HN : (1 <= length three_samples)%nat) by (simpl; lia).
  assert (Hr : (1 <= resolution linear_props)%nat) by (simpl; lia).
  split; [exact HN|]. split; [exact Hr|].
  destruct (retained_samples_are_strided linear_props three_samples HN Hr)
    as (warn & indices & s & Hds & _ & Hlen & _ & Hfirst & _).
  exists warn, indices, s. repeat split; assumption.
Defined.

Lemma right_channel_ignored_outside_linear_witness :
  stereo_handling spiral_props = Z_AXIS
  /\ vis_style spiral_props <> LINEAR
  /\ execute spiral_props "clip_Waveform" (Arr2 three_samples [1; 1; 1])
     = execute spiral_props "clip_Waveform" (Arr2 three_samples [0; 0; 0]).
Proof.
  assert (Hv : vis_style spiral_props <> LINEAR) by discriminate.
  split; [reflexivity|]. split; [exact Hv|].
  apply (right_channel_ignored_outside_linear spiral_props "clip_Waveform"
           three_samples [1; 1; 1] [0; 0; 0] eq_refl Hv).
Defined.

Lemma mesh_thickness_ignored_witness :
  vis_style spiral_props = SPIRAL
  /\ execute (with_mesh_thickness spiral_props 3) "clip_Waveform"
       (Arr1 three_samples)
     = execute spiral_props "clip_Waveform" (Arr1 three_samples).
Proof.
  split; [reflexivity|].
  apply (mesh_thickness_ignored spiral_props "clip_Waveform"
           (Arr1 three_samples) 3).
  left. reflexivity.
Defined.

Lemma linear_ribbon_positions_witness :
  mesh_generation linear_props (Arr1 three_samples)
      (mkLocals None None (Some three_samples)) 3 = inr linear_three
  /\ vertex_x (nth 0 (verts linear_three) (0, 0, 0)) = 0
  /\ vertex_x (nth (2 * (3 - 1)) (verts linear_three) (0, 0, 0))
     = scale_x linear_props.
Proof.
  split; [reflexivity|].
  destruct (linear_ribbon_positions linear_props (Arr1 three_samples)
              (mkLocals None None (Some three_samples)) three_samples 3
              linear_three eq_refl eq_refl eq_refl eq_refl)
    as (_ & Hspan & _).
  destruct (Hspan ltac:(lia)) as (Hfirst & Hlast & _).
  split; assumption.
Defined.

Lemma spiral_line_positions_witness :
  mesh_generation spiral_props (Arr1 three_samples)
      (mkLocals None None (Some three_samples)) 3 = inr spiral_three
  /\ 0.01 <= scale_x spiral_props
  /\ nth (3 - 1) (verts spiral_three) (0, 0, 0)
     = (scale_x spiral_props, 0,
        nth (3 - 1) three_samples 0 * scale_y spiral_props
          * scale_z spiral_props).
Proof.
  assert (Hsx : 0.01 <= scale_x spiral_props) by (simpl; lra).
  split; [reflexivity|]. split; [exact Hsx|].
  destruct (spiral_line_positions spiral_props (Arr1 three_samples)
              (mkLocals None None (Some three_samples)) three_samples 3
              spiral_three eq_refl eq_refl eq_refl Hsx)
    as (_ & Hends).
  destruct (Hends ltac:(lia)) as (_ & Hlast). exact Hlast.
Defined.

Lemma every_vertex_is_connected_witness :
  mesh_generation linear_props (Arr1 three_samples)
      (mkLocals None None (Some three_samples)) 3 = inr linear_three
  /\ (5 < length (verts linear_three))%nat
  /\ exists f, In f (faces linear_three) /\ face_corner 5 f.
Proof.
  assert (Hv : (5 < length (verts linear_three))%nat) by (simpl; lia).
  split; [reflexivity|]. split; [exact Hv|].
  apply (every_vertex_is_connected linear_props (Arr1 three_samples)
           (mkLocals None None (Some three_samples)) 3 linear_three 5
           eq_refl Hv).
  left. lia.
Defined.

Lemma linear_edges_are_face_sides_witness :
  vis_style linear_props = LINEAR
  /\ mesh_generation linear_props (Arr1 three_samples)
       (mkLocals None None (Some three_samples)) 3 = inr linear_three
  /\ length (edges linear_three) = 4%nat.
Proof.
  split; [reflexivity|]. split; [reflexivity|].
  destruct (linear_edges_are_face_sides linear_props (Arr1 three_samples)
              (mkLocals None None (Some three_samples)) 3 linear_three
              eq_refl eq_refl) as (Hlen & _).
  exact Hlen.
Defined.

Lemma faces_and_edges_are_not_degenerate_witness :
  mesh_generation radial_props (Arr1 three_samples)
      (mkLocals None None (Some three_samples)) 3 = inr radial_three
  /\ (2 <= 3)%nat
  /\ Forall face_distinct (faces radial_three).
Proof.
  split; [reflexivity|]. split; [lia|].
  destruct (faces_and_edges_are_not_degenerate radial_props (Arr1 three_samples)
              (mkLocals None None (Some three_samples)) 3 radial_three
              eq_refl ltac:(intros _; lia)) as (Hfaces & _).
  exact Hfaces.
Defined.

Lemma panel_settings_by_style_witness :
  LIBROSA_AVAILABLE demo_host = true
  /\ os_path_exists demo_host (bpy_path_abspath demo_host "/tmp/clip.wav") = true
  /\ (draws_prop P_mesh_thickness (draw demo_host "/tmp/clip.wav" spiral_props)
      <-> vis_style spiral_props <> SPIRAL).
Proof.
  split; [reflexivity|]. split; [reflexivity|].
  destruct (panel_settings_by_style demo_host "/tmp/clip.wav" spiral_props
              eq_refl ltac:(discriminate) eq_refl) as (_ & Hthick & _).
  exact Hthick.
Defined.
